(** * Client-side transaction layer of the e-waste ledger

    A shallow embedding of [src/transactions.py]: the wire encoding of the
    BLOCK / ALLOCATE transactions and of the HISTORY / NUMBER queries, the
    digest that is signed, and the mapping of network responses and of
    exceptions to the tuples the four public operations return.

    Python values are modelled as follows.
    - [str] is a list of Unicode code points ([pystr]); [bytes] is a list of
      [Byte.byte].
    - [int] is [Z]; the fields of a [datetime] are [N].
    - An expression that may raise evaluates to a [result]: [Ok v] or
      [Raise e].  [try ... except] is [try_except], with the clauses of the
      source in their order.
    - The parts of the world the module talks to ([requests.get],
      [json.loads], [datetime.now], the signing key's [sign]) are the fields
      of a [World].

    Library functions the module calls ([str], [strftime], [strptime],
    [str.format], [str.split], [int], [bytes], [bytes.decode], [bytes.hex],
    [base64.b64decode], [hashlib.sha256]) are written out after CPython 3.11.
    Two things are left out of these library models: decimal digits outside
    ASCII (which [int] and the [\d] of [strptime] also accept) are treated as
    non-digits, and the interpreter's limit on the number of digits of an
    [int] that [str] and [int] convert is absent. *)

From Stdlib Require Import ZArith NArith String Ascii Bool Lia.
From Stdlib Require Import Init.Byte.
From Stdlib Require Floats.SpecFloat.
From Stdlib Require Import List.
Import ListNotations.
Local Open Scope list_scope.

Set Implicit Arguments.
Set Warnings "-register-all".

(** ** Python values *)

Abbreviation codepoint := N (only parsing).
Abbreviation pystr := (list N) (only parsing).
Abbreviation bytes := (list byte) (only parsing).

(** An ASCII literal of the source as a [pystr]. *)
Definition lit (s : string) : pystr :=
  map N_of_ascii (list_ascii_of_string s).

Definition pystr_eqb (a b : pystr) : bool :=
  if list_eq_dec N.eq_dec a b then true else false.

(** ** Exceptions *)

Inductive exn : Type :=
| KeyboardInterrupt
| SystemExit
| KeyError
| IndexError
| TypeError
| ValueError
| UnicodeEncodeError
| UnicodeDecodeError
| BinasciiError
| JSONDecodeError
| OtherError (name : string).

Definition is_KeyboardInterrupt (e : exn) : bool :=
  match e with KeyboardInterrupt => true | _ => false end.

Inductive result (A : Type) : Type :=
| Ok (a : A)
| Raise (e : exn).
Arguments Ok {A} a.
Arguments Raise {A} e.

Definition bind {A B} (m : result A) (k : A -> result B) : result B :=
  match m with
  | Ok a => k a
  | Raise e => Raise e
  end.

Declare Scope py_scope.
Delimit Scope py_scope with py.
Notation "x <- m ;; k" := (bind m (fun x => k))
  (at level 61, m at next level, right associativity) : py_scope.
Notation "' pat <- m ;; k" := (bind m (fun x => match x with pat => k end))
  (at level 61, pat pattern, m at next level, right associativity) : py_scope.

(** [try: body  except C1: h1  except: h2 ...]: the first clause whose class
    matches the exception handles it; with no matching clause the exception
    propagates.  A bare [except:] is the clause that matches everything. *)
Record handler (A : Type) : Type := Except {
  catches : exn -> bool;
  handle : result A
}.

Definition except_all {A} (h : result A) : handler A :=
  Except (fun _ => true) h.

Fixpoint dispatch {A} (e : exn) (hs : list (handler A)) : result A :=
  match hs with
  | [] => Raise e
  | h :: hs' => if catches h e then handle h else dispatch e hs'
  end.

Definition try_except {A} (body : result A) (hs : list (handler A)) : result A :=
  match body with
  | Ok a => Ok a
  | Raise e => dispatch e hs
  end.

(** [quit()] raises [SystemExit]. *)
Definition quit {A} : result A := Raise SystemExit.

(** ** [str] of an [int] and of a [bool] *)

Definition is_digit (c : codepoint) : bool := ((48 <=? c) && (c <=? 57))%N.

Definition digit_char (d : N) : codepoint := (48 + d)%N.

(** Decimal digits of [n], most significant first, in front of [acc]. *)
Fixpoint digits_fuel (fuel : nat) (n : N) (acc : pystr) : pystr :=
  match fuel with
  | O => acc
  | S fuel' =>
      let acc' := digit_char (n mod 10) :: acc in
      if (n <? 10)%N then acc' else digits_fuel fuel' (n / 10) acc'
  end.

Definition str_N (n : N) : pystr :=
  digits_fuel (S (N.to_nat (N.log2 n))) n [].

Definition str_int (z : Z) : pystr :=
  match z with
  | Zneg p => 45%N :: str_N (Npos p)
  | _ => str_N (Z.to_N z)
  end.

Definition str_bool (b : bool) : pystr :=
  if b then lit "True" else lit "False".

(** ** [datetime] *)

Record datetime : Type := mk_datetime {
  year : N;
  month : N;
  day : N;
  hour : N;
  minute : N;
  second : N;
  microsecond : N
}.

Definition is_leap (y : N) : bool :=
  ((y mod 4 =? 0) && (negb (y mod 100 =? 0) || (y mod 400 =? 0)))%N.

Definition days_in_month (y m : N) : N :=
  match m with
  | 2 => if is_leap y then 29 else 28
  | 4 | 6 | 9 | 11 => 30
  | _ => 31
  end%N.

(** The ranges the [datetime] constructor enforces. *)
Definition valid_datetime (t : datetime) : bool :=
  ((1 <=? year t) && (year t <=? 9999) &&
   (1 <=? month t) && (month t <=? 12) &&
   (1 <=? day t) && (day t <=? days_in_month (year t) (month t)) &&
   (hour t <? 24) && (minute t <? 60) && (second t <? 60) &&
   (microsecond t <? 1000000))%N.

(** [datetime(...)]: [ValueError] outside the ranges. *)
Definition new_datetime (y mo d h mi s us : N) : result datetime :=
  let t := mk_datetime y mo d h mi s us in
  if valid_datetime t then Ok t else Raise ValueError.

(** ** [strftime] *)

Definition BYTE_ENCODING : string := "UTF-8".
Definition DATETIME_FORMAT : string := "%y%m%d%H%M%S%f".

(** ["%0wd"]. *)
Definition zero_pad (w : nat) (n : N) : pystr :=
  let s := str_N n in repeat 48%N (w - length s) ++ s.

(** The directives of [DATETIME_FORMAT]; any other character (and a [%]
    followed by a character that is not one of these directives) is copied. *)
Definition directive (t : datetime) (c : ascii) : option pystr :=
  match c with
  | "y"%char => Some (zero_pad 2 (year t mod 100))
  | "m"%char => Some (zero_pad 2 (month t))
  | "d"%char => Some (zero_pad 2 (day t))
  | "H"%char => Some (zero_pad 2 (hour t))
  | "M"%char => Some (zero_pad 2 (minute t))
  | "S"%char => Some (zero_pad 2 (second t))
  | "f"%char => Some (zero_pad 6 (microsecond t))
  | "%"%char => Some (lit "%")
  | _ => None
  end.

Fixpoint strftime_from (t : datetime) (fmt : string) : pystr :=
  match fmt with
  | EmptyString => []
  | String "%"%char (String c rest) =>
      match directive t c with
      | Some s => s ++ strftime_from t rest
      | None => N_of_ascii "%"%char :: N_of_ascii c :: strftime_from t rest
      end
  | String c rest => N_of_ascii c :: strftime_from t rest
  end.

Definition strftime (t : datetime) (fmt : string) : pystr := strftime_from t fmt.

(** The wire timestamp. *)
Definition wire_timestamp (t : datetime) : pystr := strftime t DATETIME_FORMAT.

(** ** [bytes(s, "UTF-8")] and [bytes.decode("UTF-8")] *)

Definition byte_of_N (n : N) : byte :=
  match Byte.of_N (n mod 256) with
  | Some b => b
  | None => x00
  end.

(** A lone surrogate has no UTF-8 encoding; numbers from 0x110000 on are not
    code points, and no [str] holds one. *)
Definition utf8_encode_char (c : codepoint) : result bytes :=
  (if c <? 0x80 then Ok [byte_of_N c]
   else if c <? 0x800 then
     Ok [byte_of_N (0xC0 + c / 64); byte_of_N (0x80 + c mod 64)]
   else if c <? 0x10000 then
     if (0xD800 <=? c) && (c <=? 0xDFFF) then Raise UnicodeEncodeError
     else Ok [byte_of_N (0xE0 + c / 4096);
              byte_of_N (0x80 + (c / 64) mod 64);
              byte_of_N (0x80 + c mod 64)]
   else if c <? 0x110000 then
     Ok [byte_of_N (0xF0 + c / 262144);
         byte_of_N (0x80 + (c / 4096) mod 64);
         byte_of_N (0x80 + (c / 64) mod 64);
         byte_of_N (0x80 + c mod 64)]
   else Raise UnicodeEncodeError)%N.

Fixpoint utf8_encode (s : pystr) : result bytes :=
  match s with
  | [] => Ok []
  | c :: s' =>
      (b <- utf8_encode_char c ;;
       bs <- utf8_encode s' ;;
       Ok (b ++ bs))%py
  end.

Definition LookupError : exn := OtherError "LookupError".

(** [bytes(s, encoding)]. *)
Definition bytes_of_str (s : pystr) (encoding : string) : result bytes :=
  if String.eqb encoding "UTF-8" then utf8_encode s else Raise LookupError.

Definition in_range (lo hi : N) (b : byte) : bool :=
  ((lo <=? Byte.to_N b) && (Byte.to_N b <=? hi))%N.

Definition is_cont : byte -> bool := in_range 0x80 0xBF.

(** The payload bits of a continuation byte. *)
Definition cont (b : byte) : N := (Byte.to_N b - 0x80)%N.

(** Strict decoding: the well-formed byte sequences of the Unicode standard
    (no overlong form, no surrogate, nothing above U+10FFFF). *)
Fixpoint utf8_decode (bs : bytes) : result pystr :=
  match bs with
  | [] => Ok []
  | b0 :: r0 =>
      let n0 := Byte.to_N b0 in
      if (n0 <? 0x80)%N then
        (s <- utf8_decode r0 ;; Ok (n0 :: s))%py
      else if in_range 0xC2 0xDF b0 then
        match r0 with
        | b1 :: r1 =>
            if is_cont b1 then
              (s <- utf8_decode r1 ;;
               Ok (((n0 - 0xC0) * 64 + cont b1)%N :: s))%py
            else Raise UnicodeDecodeError
        | _ => Raise UnicodeDecodeError
        end
      else if in_range 0xE0 0xEF b0 then
        match r0 with
        | b1 :: b2 :: r2 =>
            let lo := if (n0 =? 0xE0)%N then 0xA0%N else 0x80%N in
            let hi := if (n0 =? 0xED)%N then 0x9F%N else 0xBF%N in
            if in_range lo hi b1 && is_cont b2 then
              (s <- utf8_decode r2 ;;
               Ok (((n0 - 0xE0) * 4096 + cont b1 * 64 + cont b2)%N :: s))%py
            else Raise UnicodeDecodeError
        | _ => Raise UnicodeDecodeError
        end
      else if in_range 0xF0 0xF4 b0 then
        match r0 with
        | b1 :: b2 :: b3 :: r3 =>
            let lo := if (n0 =? 0xF0)%N then 0x90%N else 0x80%N in
            let hi := if (n0 =? 0xF4)%N then 0x8F%N else 0xBF%N in
            if in_range lo hi b1 && is_cont b2 && is_cont b3 then
              (s <- utf8_decode r3 ;;
               Ok (((n0 - 0xF0) * 262144 + cont b1 * 4096
                    + cont b2 * 64 + cont b3)%N :: s))%py
            else Raise UnicodeDecodeError
        | _ => Raise UnicodeDecodeError
        end
      else Raise UnicodeDecodeError
  end.

(** [b.decode(encoding)]. *)
Definition decode (b : bytes) (encoding : string) : result pystr :=
  if String.eqb encoding "UTF-8" then utf8_decode b else Raise LookupError.

(** The bytes of a [str] of ASCII characters. *)
Definition ascii_bytes (s : pystr) : bytes := map byte_of_N s.

Definition is_ascii (s : pystr) : bool := forallb (fun c => c <? 128)%N s.

(** ** [bytes.hex] *)

Definition hex_digit (n : N) : codepoint :=
  (if n <? 10 then 48 + n else 87 + n)%N.

Definition hex_byte (b : byte) : pystr :=
  [hex_digit (Byte.to_N b / 16); hex_digit (Byte.to_N b mod 16)].

Definition hex (bs : bytes) : pystr := flat_map hex_byte bs.

(** ** [hashlib.sha256] *)

Module Sha256.

(** 32-bit words as [N], the wrap-around written out. *)
Definition w32 (x : N) : N := (x mod 4294967296)%N.
Definition add32 (x y : N) : N := w32 (x + y).
Definition rotr (n x : N) : N :=
  N.lor (N.shiftr x n) (w32 (N.shiftl x (32 - n))).
Definition not32 (x : N) : N := N.lxor x 0xFFFFFFFF.

Definition Ch (x y z : N) : N := N.lxor (N.land x y) (N.land (not32 x) z).
Definition Maj (x y z : N) : N :=
  N.lxor (N.lxor (N.land x y) (N.land x z)) (N.land y z).
Definition Sigma0 (x : N) : N :=
  N.lxor (N.lxor (rotr 2 x) (rotr 13 x)) (rotr 22 x).
Definition Sigma1 (x : N) : N :=
  N.lxor (N.lxor (rotr 6 x) (rotr 11 x)) (rotr 25 x).
Definition sigma0 (x : N) : N :=
  N.lxor (N.lxor (rotr 7 x) (rotr 18 x)) (N.shiftr x 3).
Definition sigma1 (x : N) : N :=
  N.lxor (N.lxor (rotr 17 x) (rotr 19 x)) (N.shiftr x 10).

(** The words written in a string of hexadecimal digits, eight digits to
    a word, the words separated by blanks. *)
Definition hex_value (c : ascii) : N :=
  let n := N_of_ascii c in
  (if n <? 58 then n - 48 else n - 87)%N.

Fixpoint hex_words_from (s : string) (word : N) (started : bool) : list N :=
  match s with
  | EmptyString => if started then [word] else []
  | String " "%char rest =>
      if started then word :: hex_words_from rest 0 false
      else hex_words_from rest 0 false
  | String c rest => hex_words_from rest (16 * word + hex_value c) true
  end.

Definition hex_words (s : string) : list N := hex_words_from s 0 false.

(** The round constants (FIPS 180-4, section 4.2.2). *)
Definition K : list N :=
  Eval vm_compute in
    hex_words
      ("428a2f98 71374491 b5c0fbcf e9b5dba5 3956c25b 59f111f1 923f82a4 ab1c5ed5 "
       ++ "d807aa98 12835b01 243185be 550c7dc3 72be5d74 80deb1fe 9bdc06a7 c19bf174 "
       ++ "e49b69c1 efbe4786 0fc19dc6 240ca1cc 2de92c6f 4a7484aa 5cb0a9dc 76f988da "
       ++ "983e5152 a831c66d b00327c8 bf597fc7 c6e00bf3 d5a79147 06ca6351 14292967 "
       ++ "27b70a85 2e1b2138 4d2c6dfc 53380d13 650a7354 766a0abb 81c2c92e 92722c85 "
       ++ "a2bfe8a1 a81a664b c24b8b70 c76c51a3 d192e819 d6990624 f40e3585 106aa070 "
       ++ "19a4c116 1e376c08 2748774c 34b0bcb5 391c0cb3 4ed8aa4a 5b9cca4f 682e6ff3 "
       ++ "748f82ee 78a5636f 84c87814 8cc70208 90befffa a4506ceb bef9a3f7 c67178f2")%string.

(** The eight working variables, and the chaining value. *)
Inductive regs : Type :=
  Regs (a b c d e f g h : N).

Definition H0 : regs :=
  Regs 0x6a09e667 0xbb67ae85 0x3c6ef372 0xa54ff53a
       0x510e527f 0x9b05688c 0x1f83d9ab 0x5be0cd19.

(** Big-endian words of a block. *)
Fixpoint words_of (bs : bytes) : list N :=
  match bs with
  | b0 :: b1 :: b2 :: b3 :: rest =>
      (Byte.to_N b0 * 16777216 + Byte.to_N b1 * 65536
       + Byte.to_N b2 * 256 + Byte.to_N b3)%N :: words_of rest
  | _ => []
  end.

Definition bytes_of_word (x : N) : bytes :=
  [byte_of_N (x / 16777216); byte_of_N (x / 65536);
   byte_of_N (x / 256); byte_of_N x].

(** The message schedule: [win] holds the last sixteen words, oldest
    first; [n] more words are produced. *)
Fixpoint schedule (n : nat) (win : list N) : list N :=
  match n with
  | O => []
  | S n' =>
      let wt :=
        add32 (add32 (add32 (sigma1 (nth 14 win 0%N)) (nth 9 win 0%N))
                     (sigma0 (nth 1 win 0%N)))
              (nth 0 win 0%N) in
      wt :: schedule n' (tl win ++ [wt])
  end.

Definition round (r : regs) (kw : N * N) : regs :=
  let '(Regs a b c d e f g h) := r in
  let t1 := add32 (add32 (add32 (add32 h (Sigma1 e)) (Ch e f g)) (fst kw))
                  (snd kw) in
  let t2 := add32 (Sigma0 a) (Maj a b c) in
  Regs (add32 t1 t2) a b c (add32 d t1) e f g.

Definition add_regs (x y : regs) : regs :=
  let '(Regs a b c d e f g h) := x in
  let '(Regs a' b' c' d' e' f' g' h') := y in
  Regs (add32 a a') (add32 b b') (add32 c c') (add32 d d')
       (add32 e e') (add32 f f') (add32 g g') (add32 h h').

(** One 64-byte block. *)
Definition compress (r : regs) (block : bytes) : regs :=
  let w16 := words_of block in
  add_regs r (fold_left round (combine K (w16 ++ schedule 48 w16)) r).

Definition bytes_of_regs (r : regs) : bytes :=
  let '(Regs a b c d e f g h) := r in
  flat_map bytes_of_word [a; b; c; d; e; f; g; h].

(** Padding of a message of [len] bytes: 0x80, zeros up to 56 modulo 64,
    and the length in bits on eight bytes. *)
Definition padding (len : N) : bytes :=
  let zeros := N.to_nat ((119 - len mod 64) mod 64) in
  let bits := ((8 * len) mod 18446744073709551616)%N in
  x80 :: repeat x00 zeros
    ++ bytes_of_word (bits / 4294967296) ++ bytes_of_word bits.

(** The full 64-byte blocks of [data]. *)
Fixpoint blocks (fuel : nat) (data : bytes) : list bytes :=
  match fuel with
  | O => []
  | S fuel' =>
      if length data <? 64 then []
      else firstn 64 data :: blocks fuel' (skipn 64 data)
  end%nat.

(** SHA-256 of a whole message (FIPS 180-4): pad, cut into blocks, fold. *)
Definition SHA256 (m : bytes) : bytes :=
  let padded := m ++ padding (N.of_nat (length m)) in
  bytes_of_regs (fold_left compress (blocks (length padded) padded) H0).

(** The hasher object: chaining value, bytes not yet compressed (fewer
    than 64), and the number of bytes fed so far. *)
Record hasher : Type := mk_hasher {
  chain : regs;
  buffer : bytes;
  count : N
}.

(** Compress the full blocks of [data]; what is left is returned. *)
Fixpoint absorb (fuel : nat) (r : regs) (data : bytes) : regs * bytes :=
  match fuel with
  | O => (r, data)
  | S fuel' =>
      if length data <? 64 then (r, data)
      else absorb fuel' (compress r (firstn 64 data)) (skipn 64 data)
  end%nat.

Definition absorb_all (r : regs) (data : bytes) : regs * bytes :=
  absorb (length data) r data.

(** [sha256()]. *)
Definition new : hasher := mk_hasher H0 [] 0.

(** [hasher.update(data)]. *)
Definition update (s : hasher) (data : bytes) : hasher :=
  let pending := buffer s ++ data in
  let '(r, rest) := absorb_all (chain s) pending in
  mk_hasher r rest (count s + N.of_nat (length data)).

(** [hasher.digest()]. *)
Definition digest (s : hasher) : bytes :=
  let final := buffer s ++ padding (count s) in
  bytes_of_regs (fst (absorb_all (chain s) final)).

(** [fed s m]: the hasher [s] is the one that was fed the message [m]. *)
Definition fed (s : hasher) (m : bytes) : Prop :=
  absorb_all H0 m = (chain s, buffer s) /\ count s = N.of_nat (length m).

End Sha256.

(** ** [compute_hash] *)

Definition compute_hash (device_id : Z) (location : pystr)
    (timestamp : datetime) (destruct : bool) : result bytes :=
  (let hasher := Sha256.new in
   b1 <- bytes_of_str (str_int device_id) BYTE_ENCODING ;;
   let hasher := Sha256.update hasher b1 in
   b2 <- bytes_of_str location BYTE_ENCODING ;;
   let hasher := Sha256.update hasher b2 in
   b3 <- bytes_of_str (strftime timestamp DATETIME_FORMAT) BYTE_ENCODING ;;
   let hasher := Sha256.update hasher b3 in
   b4 <- bytes_of_str (str_bool destruct) BYTE_ENCODING ;;
   let hasher := Sha256.update hasher b4 in
   Ok (Sha256.digest hasher))%py.

(** ** JSON values, as [json.loads] builds them *)

Inductive json : Type :=
| JNull
| JBool (b : bool)
| JInt (z : Z)
| JFloat (f : SpecFloat.spec_float)
| JStr (s : pystr)
| JList (l : list json)
| JDict (d : list (pystr * json)).

(** [if v:] *)
Definition truthy (v : json) : bool :=
  match v with
  | JNull => false
  | JBool b => b
  | JInt z => negb (z =? 0)%Z
  | JFloat (SpecFloat.S754_zero _) => false
  | JFloat _ => true
  | JStr [] => false
  | JStr _ => true
  | JList [] => false
  | JList _ => true
  | JDict [] => false
  | JDict _ => true
  end.

Fixpoint dict_get (d : list (pystr * json)) (key : pystr) : option json :=
  match d with
  | [] => None
  | (k, v) :: d' => if pystr_eqb k key then Some v else dict_get d' key
  end.

(** [v[key]] with a [str] key: a dict looks the key up; a list or a string
    wants integer indices; nothing else can be subscripted. *)
Definition getitem (v : json) (key : string) : result json :=
  match v with
  | JDict d =>
      match dict_get d (lit key) with
      | Some x => Ok x
      | None => Raise KeyError
      end
  | _ => Raise TypeError
  end.

(** ** [base64.b64decode] *)

(** [table_a2b_base64]. *)
Definition b64_value (c : byte) : option N :=
  let n := Byte.to_N c in
  (if (65 <=? n) && (n <=? 90) then Some (n - 65)
   else if (97 <=? n) && (n <=? 122) then Some (n - 71)
   else if (48 <=? n) && (n <=? 57) then Some (n + 4)
   else if n =? 43 then Some 62
   else if n =? 47 then Some 63
   else None)%N.

Definition BASE64_PAD : byte := "=".

(** [binascii.a2b_base64] without [strict_mode]: characters outside the
    alphabet are skipped, padding that completes a quad ends the decoding,
    and an incomplete quad at the end of the input is an error.  The
    arguments are the C function's [quad_pos], [leftchar] and [pads]. *)
Fixpoint a2b_loop (data : bytes) (quad_pos : nat) (leftchar : N) (pads : nat)
  : result bytes :=
  match data with
  | [] => if (quad_pos =? 0)%nat then Ok [] else Raise BinasciiError
  | c :: rest =>
      if Byte.eqb c BASE64_PAD then
        if (2 <=? quad_pos)%nat then
          if (4 <=? quad_pos + S pads)%nat then Ok []
          else a2b_loop rest quad_pos leftchar (S pads)
        else a2b_loop rest quad_pos leftchar pads
      else
        match b64_value c with
        | None => a2b_loop rest quad_pos leftchar pads
        | Some this_ch =>
            match quad_pos with
            | 0%nat => a2b_loop rest 1 this_ch 0
            | 1%nat =>
                (out <- a2b_loop rest 2 (N.land this_ch 0x0f) 0 ;;
                 Ok (byte_of_N (N.lor (N.shiftl leftchar 2)
                                      (N.shiftr this_ch 4)) :: out))%py
            | 2%nat =>
                (out <- a2b_loop rest 3 (N.land this_ch 0x03) 0 ;;
                 Ok (byte_of_N (N.lor (N.shiftl leftchar 4)
                                      (N.shiftr this_ch 2)) :: out))%py
            | _ =>
                (out <- a2b_loop rest 0 0 0 ;;
                 Ok (byte_of_N (N.lor (N.shiftl leftchar 6) this_ch) :: out))%py
            end
        end
  end.

Definition a2b_base64 (data : bytes) : result bytes := a2b_loop data 0 0 0.

(** [base64.b64decode(s)]: a [str] must be ASCII; a value that is neither
    [str] nor bytes-like is a [TypeError]. *)
Definition b64decode (s : json) : result bytes :=
  match s with
  | JStr s => if is_ascii s then a2b_base64 (ascii_bytes s) else Raise ValueError
  | _ => Raise TypeError
  end.

(** The encoding the network applies (RFC 4648, with padding); it is the
    reference the decoder is compared with, no code of the client. *)
Definition b64_char (n : N) : byte :=
  (if n <? 26 then byte_of_N (65 + n)
   else if n <? 52 then byte_of_N (71 + n)
   else if n <? 62 then byte_of_N (n - 4)
   else if n =? 62 then "+"%byte
   else "/"%byte)%N.

Fixpoint b64encode (bs : bytes) : bytes :=
  match bs with
  | [] => []
  | [a] =>
      let a := Byte.to_N a in
      [b64_char (a / 4); b64_char ((a mod 4) * 16); BASE64_PAD; BASE64_PAD]
  | [a; b] =>
      let a := Byte.to_N a in
      let b := Byte.to_N b in
      [b64_char (a / 4); b64_char ((a mod 4) * 16 + b / 16);
       b64_char ((b mod 16) * 4); BASE64_PAD]
  | a :: b :: c :: rest =>
      let a := Byte.to_N a in
      let b := Byte.to_N b in
      let c := Byte.to_N c in
      b64_char (a / 4) :: b64_char ((a mod 4) * 16 + b / 16)
        :: b64_char ((b mod 16) * 4 + c / 64) :: b64_char (c mod 64)
        :: b64encode rest
  end%N.

(** The [str] holding ASCII bytes. *)
Definition ascii_str (bs : bytes) : pystr := map Byte.to_N bs.

(** ** [int(s)] *)

(** [Py_ISSPACE]. *)
Definition is_space (c : codepoint) : bool :=
  (((9 <=? c) && (c <=? 13)) || (c =? 32))%N.

(** [Py_UNICODE_ISSPACE] from 127 on. *)
Definition is_unicode_space (c : codepoint) : bool :=
  ((c =? 0x85) || (c =? 0xA0) || (c =? 0x1680)
   || ((0x2000 <=? c) && (c <=? 0x200A))
   || (c =? 0x2028) || (c =? 0x2029) || (c =? 0x202F) || (c =? 0x205F)
   || (c =? 0x3000))%N.

(** [_PyUnicode_TransformDecimalAndSpaceToASCII]: an ASCII string is kept;
    in another string a space becomes [' '] and a character that is neither
    a space nor a decimal digit becomes ['?']. *)
Definition transform_decimal_and_space (s : pystr) : pystr :=
  if is_ascii s then s
  else map (fun c => if c <? 127 then c
                     else if is_unicode_space c then 32 else 63)%N s.

Fixpoint skip_spaces (s : pystr) : pystr :=
  match s with
  | c :: s' => if is_space c then skip_spaces s' else s
  | [] => []
  end.

Definition UNDERSCORE : codepoint := 95%N.

(** The scan over digits and single underscores: the value read so far, the
    number of digits, and whether the previous character was an underscore. *)
Fixpoint scan_digits (s : pystr) (prev_underscore : bool) (value : N)
    (digits : nat) : result (N * nat * pystr) :=
  match s with
  | c :: s' =>
      if is_digit c then scan_digits s' false (10 * value + (c - 48))%N (S digits)
      else if (c =? UNDERSCORE)%N then
        if prev_underscore then Raise ValueError
        else scan_digits s' true value digits
      else if prev_underscore then Raise ValueError
      else Ok (value, digits, s)
  | [] => if prev_underscore then Raise ValueError else Ok (value, digits, [])
  end.

(** An optional sign: whether it is [-], and what follows it. *)
Definition parse_sign (s : pystr) : bool * pystr :=
  match s with
  | c :: s' =>
      if (c =? 43)%N then (false, s')
      else if (c =? 45)%N then (true, s')
      else (false, s)
  | [] => (false, s)
  end.

Definition starts_with_underscore (s : pystr) : bool :=
  match s with
  | c :: _ => (c =? UNDERSCORE)%N
  | [] => false
  end.

(** [PyLong_FromString] in base 10. *)
Definition int_of_str (s : pystr) : result Z :=
  let '(negative, s) :=
    parse_sign (skip_spaces (transform_decimal_and_space s)) in
  if starts_with_underscore s then Raise ValueError
  else
    ('(value, digits, rest) <- scan_digits s false 0 0 ;;
     if (digits =? 0)%nat then Raise ValueError
     else match skip_spaces rest with
          | [] => Ok (if negative then (- Z.of_N value)%Z else Z.of_N value)
          | _ => Raise ValueError
          end)%py.

(** ** [str.split] and [str.format] *)

(** [s.split(sep)] for a separator of one character. *)
Fixpoint split (s : pystr) (sep : codepoint) : list pystr :=
  match s with
  | [] => [[]]
  | c :: s' =>
      if (c =? sep)%N then [] :: split s' sep
      else match split s' sep with
           | field :: fields => (c :: field) :: fields
           | [] => [[c]]
           end
  end.

Inductive pyobj : Type :=
| PInt (z : Z)
| PStr (s : pystr)
| PBool (b : bool).

(** [format(x, "")], which is [str(x)]. *)
Definition str (x : pyobj) : pystr :=
  match x with
  | PInt z => str_int z
  | PStr s => s
  | PBool b => str_bool b
  end.

Definition LBRACE : codepoint := 123%N.
Definition RBRACE : codepoint := 125%N.

(** [template.format(args...)] for templates whose replacement fields are all
    [{}]: each takes the next argument.  [{{] and [}}] are braces; a field
    with a name, an index, a conversion or a format specification is outside
    the model (the source has none). *)
Fixpoint format (template : pystr) (args : list pyobj) : result pystr :=
  match template with
  | [] => Ok []
  | c :: rest =>
      if (c =? LBRACE)%N then
        match rest with
        | c' :: rest' =>
            if (c' =? RBRACE)%N then
              match args with
              | x :: args' => (s <- format rest' args' ;; Ok (str x ++ s))%py
              | [] => Raise IndexError
              end
            else if (c' =? LBRACE)%N then
              (s <- format rest' args ;; Ok (LBRACE :: s))%py
            else Raise ValueError
        | [] => Raise ValueError
        end
      else if (c =? RBRACE)%N then
        match rest with
        | c' :: rest' =>
            if (c' =? RBRACE)%N then
              (s <- format rest' args ;; Ok (RBRACE :: s))%py
            else Raise ValueError
        | [] => Raise ValueError
        end
      else (s <- format rest args ;; Ok (c :: s))%py
  end.

(** ** [datetime.strptime] *)

(** The regular expression [_strptime] compiles a format to is a sequence
    of groups, one per directive; a group is an ordered choice between
    alternatives, and an alternative is a sequence of character classes. *)
Inductive atom : Type :=
| Digit
| Range (lo hi : ascii)
| Char (c : ascii).

Definition atom_matches (a : atom) (c : codepoint) : bool :=
  match a with
  | Digit => is_digit c
  | Range lo hi => ((N_of_ascii lo <=? c) && (c <=? N_of_ascii hi))%N
  | Char x => (c =? N_of_ascii x)%N
  end.

Fixpoint match_alt (a : list atom) (s : pystr) : option (pystr * pystr) :=
  match a with
  | [] => Some ([], s)
  | x :: a' =>
      match s with
      | c :: s' =>
          if atom_matches x c then
            match match_alt a' s' with
            | Some (m, rest) => Some (c :: m, rest)
            | None => None
            end
          else None
      | [] => None
      end
  end.

(** [re.match]: the first way, in the order backtracking tries them, to
    match the groups one after the other at the start of [s]; the text of
    each group and the rest of [s] that was not matched. *)
Fixpoint match_groups (gs : list (list (list atom))) (s : pystr)
  : option (list pystr * pystr) :=
  match gs with
  | [] => Some ([], s)
  | g :: gs' =>
      (fix try_alts (alts : list (list atom)) : option (list pystr * pystr) :=
         match alts with
         | [] => None
         | a :: alts' =>
             match match_alt a s with
             | Some (m, rest) =>
                 match match_groups gs' rest with
                 | Some (ms, r) => Some (m :: ms, r)
                 | None => try_alts alts'
                 end
             | None => try_alts alts'
             end
         end) g
  end.

(** [TimeRE]: the groups of the directives of [DATETIME_FORMAT]. *)
Definition directive_regex (c : ascii) : option (list (list atom)) :=
  match c with
  | "y" => Some [[Digit; Digit]]
  | "m" => Some [[Char "1"; Range "0" "2"]; [Char "0"; Range "1" "9"];
                 [Range "1" "9"]]
  | "d" => Some [[Char "3"; Range "0" "1"]; [Range "1" "2"; Digit];
                 [Char "0"; Range "1" "9"]; [Range "1" "9"];
                 [Char " "; Range "1" "9"]]
  | "H" => Some [[Char "2"; Range "0" "3"]; [Range "0" "1"; Digit]; [Digit]]
  | "M" => Some [[Range "0" "5"; Digit]; [Digit]]
  | "S" => Some [[Char "6"; Range "0" "1"]; [Range "0" "5"; Digit]; [Digit]]
  | "f" => Some [repeat (Range "0" "9") 6; repeat (Range "0" "9") 5;
                 repeat (Range "0" "9") 4; repeat (Range "0" "9") 3;
                 repeat (Range "0" "9") 2; repeat (Range "0" "9") 1]
  | _ => None
  end%char.

(** A format made of these directives; literal text and the other
    directives are outside the model. *)
Fixpoint compile_format (fmt : string)
  : result (list (ascii * list (list atom))) :=
  match fmt with
  | EmptyString => Ok []
  | String "%"%char (String c rest) =>
      match directive_regex c with
      | Some g => (items <- compile_format rest ;; Ok ((c, g) :: items))%py
      | None => Raise ValueError
      end
  | String _ _ => Raise ValueError
  end.

(** The value a matched group sets. *)
Definition convert_field (t : datetime) (name : ascii) (text : pystr)
  : result datetime :=
  match name with
  | "y" =>
      (n <- int_of_str text ;;
       let y := Z.to_N n in
       let y := if y <=? 68 then 2000 + y else 1900 + y in
       Ok (mk_datetime y (month t) (day t) (hour t) (minute t) (second t)
             (microsecond t)))%N%py
  | "m" =>
      (n <- int_of_str text ;;
       Ok (mk_datetime (year t) (Z.to_N n) (day t) (hour t) (minute t)
             (second t) (microsecond t)))%py
  | "d" =>
      (n <- int_of_str text ;;
       Ok (mk_datetime (year t) (month t) (Z.to_N n) (hour t) (minute t)
             (second t) (microsecond t)))%py
  | "H" =>
      (n <- int_of_str text ;;
       Ok (mk_datetime (year t) (month t) (day t) (Z.to_N n) (minute t)
             (second t) (microsecond t)))%py
  | "M" =>
      (n <- int_of_str text ;;
       Ok (mk_datetime (year t) (month t) (day t) (hour t) (Z.to_N n)
             (second t) (microsecond t)))%py
  | "S" =>
      (n <- int_of_str text ;;
       Ok (mk_datetime (year t) (month t) (day t) (hour t) (minute t)
             (Z.to_N n) (microsecond t)))%py
  | "f" =>
      (n <- int_of_str (text ++ repeat 48%N (6 - length text)) ;;
       Ok (mk_datetime (year t) (month t) (day t) (hour t) (minute t)
             (second t) (Z.to_N n)))%py
  | _ => Ok t
  end%char.

Fixpoint convert_fields (t : datetime) (found : list (ascii * pystr))
  : result datetime :=
  match found with
  | [] => Ok t
  | (name, text) :: found' =>
      (t' <- convert_field t name text ;; convert_fields t' found')%py
  end.

(** [datetime.strptime(data_string, fmt)]: [ValueError] when the string
    does not match, when it goes on after the match, and when the values
    read are no date and time. *)
Definition strptime (data_string : pystr) (fmt : string) : result datetime :=
  (items <- compile_format fmt ;;
   match match_groups (map snd items) data_string with
   | None => Raise ValueError
   | Some (found, []) =>
       t <- convert_fields (mk_datetime 1900 1 1 0 0 0 0)
              (combine (map fst items) found) ;;
       new_datetime (year t) (month t) (day t) (hour t) (minute t) (second t)
         (microsecond t)
   | Some (_, _ :: _) => Raise ValueError
   end)%py.

(** ** The world outside the module *)

(** [requests.get(url)] gives the content of the response or raises;
    [json.loads] parses it or raises; [datetime.now()] reads the clock. *)
Record World : Type := {
  requests_get : pystr -> result bytes;
  json_loads : bytes -> result json;
  datetime_now : datetime
}.

(** An [ecdsa.SigningKey], as far as the module uses it. *)
Record SigningKey : Type := {
  sign : bytes -> result bytes
}.

Definition DQUOTE : codepoint := 34%N.

(** The templates of the four requests. *)
Definition ALLOCATE_URL : pystr :=
  lit "http://localhost:26657/broadcast_tx_commit?tx=" ++ [DQUOTE]
  ++ lit "ALLOCATE={}={}" ++ [DQUOTE].

Definition BLOCK_TEMPLATE : pystr := lit "BLOCK={}={}={}={}={}".

Definition BROADCAST_URL : pystr :=
  lit "http://localhost:26657/broadcast_tx_commit?tx=" ++ [DQUOTE]
  ++ lit "{}" ++ [DQUOTE].

Definition NUMBER_URL : pystr :=
  lit "http://localhost:26657/abci_query?data=" ++ [DQUOTE]
  ++ lit "NUMBER" ++ [DQUOTE].

Definition HISTORY_URL : pystr :=
  lit "http://localhost:26657/abci_query?data=" ++ [DQUOTE]
  ++ lit "HISTORY={}" ++ [DQUOTE].

(** [v[a][b][c]] and [v[a][b]]. *)
Definition getitem2 (v : json) (a b : string) : result json :=
  (x <- getitem v a ;; getitem x b)%py.

Definition getitem3 (v : json) (a b c : string) : result json :=
  (x <- getitem v a ;; y <- getitem x b ;; getitem y c)%py.

(** The two [except] clauses every operation ends with. *)
Definition handlers {A} (failure : A) : list (handler A) :=
  [Except is_KeyboardInterrupt quit; except_all (Ok failure)].

(** ** [allocate_device_id] *)

Definition allocate_device_id_body (w : World) (location : pystr)
  : result (bool * Z) :=
  (url <- format ALLOCATE_URL
            [PStr location; PStr (strftime (datetime_now w) DATETIME_FORMAT)] ;;
   response <- requests_get w url ;;
   dict <- json_loads w response ;;
   code <- getitem3 dict "result" "check_tx" "code" ;;
   if truthy code then Ok (false, (-1)%Z)
   else
     data <- getitem3 dict "result" "deliver_tx" "data" ;;
     raw <- b64decode data ;;
     text <- decode raw BYTE_ENCODING ;;
     n <- int_of_str text ;;
     Ok (true, n))%py.

Definition allocate_device_id (w : World) (location : pystr)
  : result (bool * Z) :=
  try_except (allocate_device_id_body w location) (handlers (false, (-1)%Z)).

(** ** [send_device_location] *)

(** The [transaction_string] of [send_device_location]. *)
Definition transaction_string (device_id : Z) (location : pystr)
    (now : datetime) (destruct : bool) (signing_key : SigningKey)
  : result pystr :=
  (digest <- compute_hash device_id location now destruct ;;
   signature <- sign signing_key digest ;;
   format BLOCK_TEMPLATE
     [PInt device_id; PStr location; PStr (strftime now DATETIME_FORMAT);
      PBool destruct; PStr (hex signature)])%py.

(** What [send_device_location] does with the parsed response. *)
Definition check_tx_result (dict : json) : result (bool * json) :=
  (code <- getitem3 dict "result" "check_tx" "code" ;;
   if truthy code then
     log <- getitem3 dict "result" "check_tx" "log" ;;
     Ok (false, log)
   else Ok (true, JStr []))%py.

Definition send_device_location_body (w : World) (device_id : Z)
    (location : pystr) (signing_key : SigningKey) (destruct : bool)
  : result (bool * json) :=
  (let now := datetime_now w in
   tx <- transaction_string device_id location now destruct signing_key ;;
   url <- format BROADCAST_URL [PStr tx] ;;
   response <- requests_get w url ;;
   dict <- json_loads w response ;;
   check_tx_result dict)%py.

Definition UNEXPECTED_ERROR : json := JStr (lit "unexpected error").

Definition send_device_location (w : World) (device_id : Z)
    (location : pystr) (signing_key : SigningKey) (destruct : bool)
  : result (bool * json) :=
  try_except (send_device_location_body w device_id location signing_key destruct)
             (handlers (false, UNEXPECTED_ERROR)).

(** ** [query_number_of_devices] *)

Definition query_number_of_devices_body (w : World)
  : result (bool * json * Z) :=
  (response <- requests_get w NUMBER_URL ;;
   dict <- json_loads w response ;;
   message <- getitem2 dict "result" "response" ;;
   code <- getitem message "code" ;;
   if truthy code then
     log <- getitem message "log" ;;
     Ok (false, log, (-1)%Z)
   else
     value <- getitem message "value" ;;
     raw <- b64decode value ;;
     text <- decode raw BYTE_ENCODING ;;
     n <- int_of_str text ;;
     Ok (true, JStr [], n))%py.

Definition query_number_of_devices (w : World) : result (bool * json * Z) :=
  try_except (query_number_of_devices_body w)
             (handlers (false, UNEXPECTED_ERROR, (-1)%Z)).

(** ** [query_device_information] *)

(** [range(start, stop, step)] for a positive step. *)
Definition range (start stop step : nat) : list nat :=
  map (fun k => start + k * step)%nat
      (seq 0 ((stop - start + (step - 1)) / step)).

(** [l[i]] for an index that is not negative. *)
Definition index {A} (l : list A) (i : nat) : result A :=
  match nth_error l i with
  | Some x => Ok x
  | None => Raise IndexError
  end.

(** The [for] loop over the fields of the payload. *)
Fixpoint history_loop (data : list pystr) (indices : list nat)
    (device_info : list (pystr * datetime))
  : result (list (pystr * datetime)) :=
  match indices with
  | [] => Ok device_info
  | i :: indices' =>
      (location <- index data i ;;
       text <- index data (i + 1) ;;
       timestamp <- strptime text DATETIME_FORMAT ;;
       history_loop data indices' (device_info ++ [(location, timestamp)]))%py
  end.

Definition EQUALS : codepoint := 61%N.

(** The decoding of a [value] that is not empty. *)
Definition decode_history (value : json) : result (list (pystr * datetime)) :=
  (raw <- b64decode value ;;
   text <- decode raw BYTE_ENCODING ;;
   let data := split text EQUALS in
   history_loop data (range 0 (length data) 2) [])%py.

Definition query_device_information_body (w : World) (device_id : Z)
  : result (bool * json * list (pystr * datetime)) :=
  (url <- format HISTORY_URL [PInt device_id] ;;
   response <- requests_get w url ;;
   dict <- json_loads w response ;;
   message <- getitem2 dict "result" "response" ;;
   code <- getitem message "code" ;;
   if truthy code then
     log <- getitem message "log" ;;
     Ok (false, log, [])
   else
     value <- getitem message "value" ;;
     device_info <- (if truthy value then decode_history value else Ok []) ;;
     info <- getitem message "info" ;;
     Ok (true, info, device_info))%py.

Definition query_device_information (w : World) (device_id : Z)
  : result (bool * json * list (pystr * datetime)) :=
  try_except (query_device_information_body w device_id)
             (handlers (false, UNEXPECTED_ERROR, [])).

(** ** What the properties are stated with *)

(** The URLs the templates come to. *)
Definition allocate_url (location : pystr) (now : datetime) : pystr :=
  lit "http://localhost:26657/broadcast_tx_commit?tx=" ++ [DQUOTE]
  ++ lit "ALLOCATE=" ++ location ++ lit "=" ++ strftime now DATETIME_FORMAT
  ++ [DQUOTE].

Definition broadcast_url (tx : pystr) : pystr :=
  lit "http://localhost:26657/broadcast_tx_commit?tx=" ++ [DQUOTE] ++ tx
  ++ [DQUOTE].

Definition history_url (device_id : Z) : pystr :=
  lit "http://localhost:26657/abci_query?data=" ++ [DQUOTE]
  ++ lit "HISTORY=" ++ str_int device_id ++ [DQUOTE].

(** The bytes [compute_hash] feeds the hasher. *)
Definition hashed_message (device_id : Z) (location : pystr)
    (timestamp : datetime) (destruct : bool) : result bytes :=
  (loc <- utf8_encode location ;;
   Ok (ascii_bytes (str_int device_id) ++ loc
       ++ ascii_bytes (strftime timestamp DATETIME_FORMAT)
       ++ ascii_bytes (str_bool destruct)))%py.







Definition new_year_2121 : datetime := mk_datetime 2121 1 1 1 1 1 0.


(** The number a string of decimal digits stands for, read after [acc]. *)
Definition digits_value (acc : N) (s : pystr) : N :=
  fold_left (fun a c => 10 * a + (c - 48))%N s acc.

(** [guarded body op failure]: the operation [op] returns what its [body]
    returns, turns every exception of the body other than KeyboardInterrupt
    into [failure], and lets nothing out but the SystemExit that [quit()]
    raises on KeyboardInterrupt. *)
Definition guarded {A} (body op : result A) (failure : A) : Prop :=
  (forall v, body = Ok v -> op = Ok v)
  /\ (forall e, body = Raise e -> e <> KeyboardInterrupt -> op = Ok failure)
  /\ (body = Raise KeyboardInterrupt -> op = Raise SystemExit)
  /\ (forall e, op = Raise e -> e = SystemExit /\ body = Raise KeyboardInterrupt).

(** ** What the further properties are stated with *)

(** The first alternative of a group that matches at the start of [s]. *)
Fixpoint first_alt (g : list (list atom)) (s : pystr) : option (pystr * pystr) :=
  match g with
  | [] => None
  | a :: g' =>
      match match_alt a s with
      | Some r => Some r
      | None => first_alt g' s
      end
  end.

(** The group [g] takes the two digits of [n] whole. *)
Definition takes_two (g : list (list atom)) (n : N) : bool :=
  match first_alt g (zero_pad 2 n) with
  | Some (m, []) => pystr_eqb m (zero_pad 2 n)
  | _ => false
  end.

(** The group of a directive of [DATETIME_FORMAT]. *)
Definition group_of (c : ascii) : list (list atom) :=
  match directive_regex c with
  | Some g => g
  | None => []
  end.

(** The year [strptime] reads from the two digits [%y] writes. *)
Definition pivot_year (y : N) : N :=
  let r := (y mod 100)%N in
  (if r <=? 68 then 2000 + r else 1900 + r)%N.

Definition with_year (t : datetime) (y : N) : datetime :=
  mk_datetime y (month t) (day t) (hour t) (minute t) (second t)
    (microsecond t).

(** The payload of a history, as the module's docstring gives it:
    location1=timestamp1=location2=timestamp2... *)
Definition history_fields (visits : list (pystr * datetime)) : list pystr :=
  flat_map (fun v => [fst v; strftime (snd v) DATETIME_FORMAT]) visits.

Fixpoint join (sep : codepoint) (fields : list pystr) : pystr :=
  match fields with
  | [] => []
  | [field] => field
  | field :: fields' => field ++ sep :: join sep fields'
  end.

Definition history_payload (visits : list (pystr * datetime)) : pystr :=
  join EQUALS (history_fields visits).

(** A visit the payload can carry: no "=" in the location, and a date and
    time of the years two digits can tell apart. *)
Definition readable_visit (v : pystr * datetime) : Prop :=
  ~ In EQUALS (fst v)
  /\ valid_datetime (snd v) = true
  /\ (1969 <= year (snd v) <= 2068)%N.

(** The visit [v] is what the fields [2k] and [2k+1] of [data] say. *)
Definition visit_of_fields (data : list pystr) (k : nat)
    (v : pystr * datetime) : Prop :=
  nth_error data (2 * k) = Some (fst v)
  /\ exists text, nth_error data (2 * k + 1) = Some text
                  /\ strptime text DATETIME_FORMAT = Ok (snd v).


(** ** Sample values *)

Definition new_year_2021 : datetime := mk_datetime 2021 1 1 1 1 1 0.

Definition dict_of (items : list (string * json)) : json :=
  JDict (map (fun kv => (lit (fst kv), snd kv)) items).

(** A response [{"result": {"check_tx": {"code": code, "log": log},
    "deliver_tx": {"data": data}}}] of the broadcast endpoint. *)
Definition broadcast_response (code log data : json) : json :=
  dict_of [("result"%string,
            dict_of [("check_tx"%string,
                      dict_of [("code"%string, code); ("log"%string, log)]);
                     ("deliver_tx"%string, dict_of [("data"%string, data)])])].

(** A response [{"result": {"response": {"code": code, "log": log,
    "info": info, "value": value}}}] of the query endpoint. *)
Definition query_response (code log info value : json) : json :=
  dict_of [("result"%string,
            dict_of [("response"%string,
                      dict_of [("code"%string, code); ("log"%string, log);
                               ("info"%string, info);
                               ("value"%string, value)])])].

(** A world whose network answers every request with the JSON value [j]. *)
Definition answering (j : json) : World :=
  {| requests_get := fun _ => Ok [];
     json_loads := fun _ => Ok j;
     datetime_now := new_year_2021 |}.

(** A world whose network call raises [e]. *)
Definition failing (e : exn) : World :=
  {| requests_get := fun _ => Raise e;
     json_loads := fun _ => Ok JNull;
     datetime_now := new_year_2021 |}.

(** A key whose signatures are the three bytes de ad 0f. *)
Definition sample_key : SigningKey := {| sign := fun _ => Ok [xde; xad; x0f] |}.

(** The payload of two visits, and its base64 form as the response
    carries it. *)
Definition two_visits : pystr :=
  lit "siteA=210101010101000000=siteB=210102020202000000".

Definition base64_str (s : pystr) : json :=
  JStr (ascii_str (b64encode (ascii_bytes s))).

(** * Properties *)

Unset Implicit Arguments.

Lemma pystr_eqb_eq (a b : pystr) : pystr_eqb a b = true <-> a = b.
Proof.
  unfold pystr_eqb. destruct (list_eq_dec N.eq_dec a b); split; congruence.
Qed.


Example sha_abc :
  hex (Sha256.SHA256 (ascii_bytes (lit "abc"))) =
  lit "ba7816bf8f01cfea414140de5dae2223b00361a396177a9cb410ff61f20015ad".
Proof. vm_compute. reflexivity. Qed.

Example sha_empty :
  hex (Sha256.SHA256 []) =
  lit "e3b0c44298fc1c149afbf4c8996fb92427ae41e4649b934ca495991b7852b855".
Proof. vm_compute. reflexivity. Qed.

Example sha_150 :
  hex (Sha256.SHA256 (repeat x61 150)) =
  lit "7595af82ae2fa59cd9bf3b4405d31c69b98de71fed5945fd777d8ab3b393a85f"
  /\ hex (Sha256.SHA256 (repeat x61 55)) =
  lit "9f4390f8d30c2dd92ec9f095b65e2b9ae9b0a925a5258e241c9f1e910f734318"
  /\ hex (Sha256.SHA256 (repeat x61 56)) =
  lit "b35439a4ac6f0948b6d6f9e3c6af0f5f590ce20f1bde7090ef7970686ec6738a"
  /\ hex (Sha256.SHA256 (repeat x61 64)) =
  lit "ffe054fe7ae0cb6dc65c3af9b61d5209f439851db43d0ba5997337df154668eb"
  /\ hex (Sha256.digest (Sha256.update (Sha256.update Sha256.new (repeat x61 70)) (repeat x61 80))) =
  lit "7595af82ae2fa59cd9bf3b4405d31c69b98de71fed5945fd777d8ab3b393a85f".
Proof. vm_compute. repeat split. Qed.

Example compute_hash_ex :
  compute_hash 5 (lit "siteA") (mk_datetime 2021 1 1 1 1 1 0) true =
  Ok (Sha256.SHA256 (ascii_bytes (lit "5siteA210101010101000000True")))
  /\ hex (Sha256.SHA256 (ascii_bytes (lit "5siteA210101010101000000True")))
     = lit "2917f79a8c9a4e57e25f73168b35d287026833f441a5b3562ac6015914df1f82".
Proof. vm_compute. split; reflexivity. Qed.

(** ** Decimal rendering *)

Lemma digits_fuel_length (fuel : nat) :
  forall (n : N) (acc : pystr) (k : nat),
    (1 <= k)%nat -> (n < 10 ^ N.of_nat k)%N ->
    (length (digits_fuel fuel n acc) <= k + length acc)%nat.
Proof.
  induction fuel as [|fuel IH]; intros n acc k Hk Hn; simpl; [lia|].
  destruct (N.ltb_spec n 10) as [Hlt|Hge]; simpl; [lia|].
  destruct k as [|[|k]]; [lia| |].
  - change (10 ^ N.of_nat 1)%N with 10%N in Hn. lia.
  - specialize (IH (n / 10)%N (digit_char (n mod 10) :: acc) (S k)).
    simpl in IH. 
    assert (Hdiv : (n / 10 < 10 ^ N.of_nat (S k))%N).
    { apply N.Div0.div_lt_upper_bound.
      rewrite <- N.pow_succ_r'. rewrite <- Nat2N.inj_succ. exact Hn. }
    specialize (IH ltac:(lia) Hdiv). simpl. lia.
Qed.

Lemma digits_fuel_grows (fuel : nat) :
  forall (n : N) (acc : pystr),
    (length acc <= length (digits_fuel fuel n acc))%nat.
Proof.
  induction fuel as [|fuel IH]; intros n acc; simpl; [lia|].
  destruct (n <? 10)%N; simpl; [lia|].
  specialize (IH (n / 10)%N (digit_char (n mod 10) :: acc)). simpl in IH. lia.
Qed.

Lemma str_N_length (n : N) (k : nat) :
  (1 <= k)%nat -> (n < 10 ^ N.of_nat k)%N -> (1 <= length (str_N n) <= k)%nat.
Proof.
  intros Hk Hn. split.
  - unfold str_N. simpl. destruct (n <? 10)%N; simpl; [lia|].
    pose proof (digits_fuel_grows (N.to_nat (N.log2 n)) (n / 10)%N
                  [digit_char (n mod 10)]) as H.
    simpl in H. lia.
  - pose proof (digits_fuel_length (S (N.to_nat (N.log2 n))) n [] k Hk Hn) as H.
    cbn [length] in H. unfold str_N. lia.
Qed.

Lemma zero_pad_length (w : nat) (n : N) :
  (1 <= w)%nat -> (n < 10 ^ N.of_nat w)%N -> length (zero_pad w n) = w.
Proof.
  intros Hw Hn. unfold zero_pad.
  rewrite length_app, repeat_length.
  pose proof (str_N_length n w Hw Hn). lia.
Qed.

(** ** The wire timestamp *)

Lemma days_in_month_le (y m : N) : (days_in_month y m <= 31)%N.
Proof.
  unfold days_in_month.
  destruct m as [|p]; [lia|].
  do 4 (try (destruct p as [p|p|]; try lia)); destruct (is_leap y); lia.
Qed.

Lemma valid_datetime_bounds (t : datetime) :
  valid_datetime t = true ->
  (1 <= year t <= 9999 /\ 1 <= month t <= 12 /\
   1 <= day t <= days_in_month (year t) (month t) /\
   hour t < 24 /\ minute t < 60 /\ second t < 60 /\
   microsecond t < 1000000)%N.
Proof.
  unfold valid_datetime. rewrite !andb_true_iff.
  rewrite !N.leb_le, !N.ltb_lt. tauto.
Qed.

Lemma wire_timestamp_fields (t : datetime) :
  wire_timestamp t =
  zero_pad 2 (year t mod 100) ++ zero_pad 2 (month t) ++ zero_pad 2 (day t)
  ++ zero_pad 2 (hour t) ++ zero_pad 2 (minute t) ++ zero_pad 2 (second t)
  ++ zero_pad 6 (microsecond t).
Proof.
  unfold wire_timestamp, strftime, DATETIME_FORMAT. cbn [strftime_from directive].
  now rewrite app_nil_r.
Qed.

(** C3, as amended: the wire timestamp of a datetime is its two-digit year,
    month, day, hour, minute and second and its six-digit microsecond, each
    zero-padded, with nothing between them: 18 characters (6 * 2 + 6), not
    20. *)
Theorem wire_timestamp_length (t : datetime) :
  valid_datetime t = true ->
  wire_timestamp t =
    zero_pad 2 (year t mod 100) ++ zero_pad 2 (month t) ++ zero_pad 2 (day t)
    ++ zero_pad 2 (hour t) ++ zero_pad 2 (minute t) ++ zero_pad 2 (second t)
    ++ zero_pad 6 (microsecond t)
  /\ length (wire_timestamp t) = 18%nat.
Proof.
  intros Hv. split; [apply wire_timestamp_fields|].
  apply valid_datetime_bounds in Hv.
  destruct Hv as (Hy & Hm & Hd & Hh & Hmi & Hs & Hus).
  pose proof (days_in_month_le (year t) (month t)) as Hdm.
  rewrite wire_timestamp_fields, !length_app.
  rewrite !zero_pad_length; try lia.
  change (10 ^ N.of_nat 2)%N with 100%N. apply N.mod_lt. lia.
Qed.

Lemma wire_timestamp_length_witness :
  wire_timestamp new_year_2021 = lit "210101010101000000"
  /\ length (wire_timestamp new_year_2021) = 18%nat.
Proof.
  destruct (wire_timestamp_length new_year_2021 eq_refl) as [_ H].
  split; [reflexivity | exact H].
Defined.

(** C3 as stated fails: the timestamp of 2021-01-01 01:01:01.000000 has 18
    characters. *)
Lemma wire_timestamp_not_20 :
  valid_datetime new_year_2021 = true
  /\ length (wire_timestamp new_year_2021) = 18%nat
  /\ length (wire_timestamp new_year_2021) <> 20%nat.
Proof. repeat split. vm_compute. discriminate. Qed.

(** ** The streaming hasher computes SHA-256 of what it was fed *)

Module Sha256Facts.
Import Sha256.

Lemma absorb_short (fuel : nat) (r : regs) (data : bytes) :
  (length data < 64)%nat -> absorb fuel r data = (r, data).
Proof.
  intros H. destruct fuel; simpl; [reflexivity|].
  apply Nat.ltb_lt in H. now rewrite H.
Qed.

Lemma absorb_fuel (f : nat) :
  forall (f' : nat) (r : regs) (data : bytes),
    (length data <= f)%nat -> (length data <= f')%nat ->
    absorb f r data = absorb f' r data.
Proof.
  induction f as [|f IH]; intros f' r data Hf Hf'.
  - rewrite !absorb_short by lia. reflexivity.
  - destruct f' as [|f']; [rewrite !absorb_short by lia; reflexivity|].
    cbn [absorb]. destruct (length data <? 64)%nat; [reflexivity|].
    apply IH; rewrite length_skipn; lia.
Qed.

Lemma absorb_all_step (r : regs) (data : bytes) :
  (64 <= length data)%nat ->
  absorb_all r data = absorb_all (compress r (firstn 64 data)) (skipn 64 data).
Proof.
  intros H.
  assert (Hb : (length data <? 64)%nat = false) by (apply Nat.ltb_ge; exact H).
  unfold absorb_all.
  destruct (length data) as [|n] eqn:E; [lia|].
  cbn [absorb]. rewrite ?E, Hb.
  apply absorb_fuel; rewrite length_skipn; lia.
Qed.

Lemma absorb_all_app (n : nat) :
  forall (r : regs) (a b : bytes),
    (length a <= n)%nat ->
    absorb_all r (a ++ b) =
    absorb_all (fst (absorb_all r a)) (snd (absorb_all r a) ++ b).
Proof.
  induction n as [|n IH]; intros r a b Hn.
  - assert (E : absorb_all r a = (r, a))
      by (unfold absorb_all; apply absorb_short; lia).
    rewrite E. reflexivity.
  - destruct (Nat.lt_ge_cases (length a) 64) as [Hlt|Hge].
    + assert (E : absorb_all r a = (r, a))
        by (unfold absorb_all; apply absorb_short; lia).
      rewrite E. reflexivity.
    + rewrite (absorb_all_step r a Hge).
      rewrite (absorb_all_step r (a ++ b)) by (rewrite length_app; lia).
      rewrite firstn_app, skipn_app.
      replace (64 - length a)%nat with 0%nat by lia.
      rewrite firstn_O, skipn_O, app_nil_r.
      apply IH. rewrite length_skipn. lia.
Qed.

Lemma absorb_blocks (fuel : nat) :
  forall (r : regs) (data : bytes),
    fst (absorb fuel r data) = fold_left compress (blocks fuel data) r.
Proof.
  induction fuel as [|fuel IH]; intros r data; cbn [absorb blocks]; [reflexivity|].
  destruct (length data <? 64)%nat; [reflexivity|]. cbn [fold_left]. apply IH.
Qed.

Lemma fed_new : fed new [].
Proof. split; reflexivity. Qed.

Lemma fed_update (s : hasher) (m data : bytes) :
  fed s m -> fed (update s data) (m ++ data).
Proof.
  intros [Habs Hcount]. unfold fed, update.
  pose proof (absorb_all_app (length m) H0 m data (le_n _)) as E.
  rewrite Habs in E. cbn [fst snd] in E. rewrite E.
  destruct (absorb_all (chain s) (buffer s ++ data)) as [r rest].
  cbn [chain buffer count]. split; [reflexivity|].
  rewrite Hcount, length_app. lia.
Qed.

Lemma fed_digest (s : hasher) (m : bytes) :
  fed s m -> digest s = SHA256 m.
Proof.
  intros [Habs Hcount]. unfold digest, SHA256.
  pose proof (absorb_all_app (length m) H0 m
                (padding (N.of_nat (length m))) (le_n _)) as E.
  rewrite Habs in E. cbn [fst snd] in E.
  rewrite Hcount, <- E. unfold absorb_all.
  now rewrite absorb_blocks.
Qed.

(** Feeding the hasher chunk by chunk is hashing the concatenation. *)
Lemma digest_updates (chunks : list bytes) :
  digest (fold_left update chunks new) = SHA256 (concat chunks).
Proof.
  apply fed_digest.
  assert (G : forall s m, fed s m ->
              fed (fold_left update chunks s) (m ++ concat chunks)).
  { induction chunks as [|c cs IH]; intros s m Hs; cbn [fold_left concat].
    - now rewrite app_nil_r.
    - rewrite app_assoc. apply IH. now apply fed_update. }
  apply (G new [] fed_new).
Qed.

End Sha256Facts.

(** ** ASCII strings *)

Lemma digits_are_ascii (s : pystr) :
  forallb is_digit s = true -> is_ascii s = true.
Proof.
  unfold is_ascii. rewrite !forallb_forall. intros H c Hc.
  specialize (H c Hc). unfold is_digit in H.
  apply andb_true_iff in H. destruct H as [_ H].
  apply N.leb_le in H. apply N.ltb_lt. lia.
Qed.

Lemma digits_fuel_digits (fuel : nat) :
  forall (n : N) (acc : pystr),
    forallb is_digit acc = true ->
    forallb is_digit (digits_fuel fuel n acc) = true.
Proof.
  induction fuel as [|fuel IH]; intros n acc Hacc; cbn [digits_fuel]; [exact Hacc|].
  assert (Hd : forallb is_digit (digit_char (n mod 10) :: acc) = true).
  { cbn [forallb]. rewrite Hacc, andb_true_r.
    unfold is_digit, digit_char.
    pose proof (N.mod_lt n 10 ltac:(lia)) as Hm.
    set (m := (n mod 10)%N) in *. clearbody m.
    apply andb_true_iff; split; apply N.leb_le; lia. }
  destruct (n <? 10)%N; [exact Hd | apply IH, Hd].
Qed.

Lemma str_N_digits (n : N) : forallb is_digit (str_N n) = true.
Proof. apply digits_fuel_digits. reflexivity. Qed.

Lemma zero_pad_digits (w : nat) (n : N) : forallb is_digit (zero_pad w n) = true.
Proof.
  unfold zero_pad. rewrite forallb_app, str_N_digits, andb_true_r.
  induction (w - length (str_N n))%nat as [|k IH]; [reflexivity|].
  cbn [repeat forallb]. now rewrite IH.
Qed.

Lemma wire_timestamp_digits (t : datetime) :
  forallb is_digit (wire_timestamp t) = true.
Proof.
  rewrite wire_timestamp_fields, !forallb_app, !zero_pad_digits. reflexivity.
Qed.

Lemma str_int_ascii (z : Z) : is_ascii (str_int z) = true.
Proof.
  destruct z as [|p|p]; cbn [str_int]; try (apply digits_are_ascii, str_N_digits).
  unfold is_ascii. cbn [forallb]. apply andb_true_iff. split; [reflexivity|].
  apply (digits_are_ascii _ (str_N_digits (Npos p))).
Qed.

Lemma str_bool_ascii (b : bool) : is_ascii (str_bool b) = true.
Proof. destruct b; reflexivity. Qed.

Lemma utf8_encode_ascii (s : pystr) :
  is_ascii s = true -> utf8_encode s = Ok (ascii_bytes s).
Proof.
  induction s as [|c s IH]; [reflexivity|].
  cbn [is_ascii forallb]. intros H. apply andb_true_iff in H.
  destruct H as [Hc Hs]. cbn [utf8_encode ascii_bytes map].
  unfold utf8_encode_char.
  change (c <? 128)%N with (c <? 0x80)%N in Hc. rewrite Hc.
  cbn [bind]. rewrite (IH Hs). reflexivity.
Qed.

(** ** The digest *)


Example b64_examples :
  b64decode (JStr (lit "NQ==")) = Ok (ascii_bytes (lit "5"))
  /\ b64decode (JStr (lit "NQ")) = Raise BinasciiError
  /\ b64decode (JStr (lit "N")) = Raise BinasciiError
  /\ b64decode (JStr (lit "NQ=x=")) = Ok [x35; x0c]
  /\ b64decode (JStr (lit "AA=A")) = Raise BinasciiError
  /\ b64decode (JStr (lit "AA==AA")) = Ok [x00]
  /\ b64decode (JStr (lit "====")) = Ok []
  /\ b64decode (JStr (lit "N!Q=!=")) = Ok (ascii_bytes (lit "5"))
  /\ b64encode (ascii_bytes (lit "NQ")) = ascii_bytes (lit "TlE=")
  /\ b64encode (ascii_bytes (lit "siteA=21")) = ascii_bytes (lit "c2l0ZUE9MjE=").
Proof. vm_compute. repeat split. Qed.

Example int_examples :
  int_of_str (lit " 5 ") = Ok 5%Z
  /\ int_of_str (lit "1_0") = Ok 10%Z
  /\ int_of_str (lit "_1") = Raise ValueError
  /\ int_of_str (lit "1__0") = Raise ValueError
  /\ int_of_str (lit "1_") = Raise ValueError
  /\ int_of_str (lit "+5") = Ok 5%Z
  /\ int_of_str (lit "-0") = Ok 0%Z
  /\ int_of_str (lit "-12") = Ok (-12)%Z
  /\ int_of_str (lit "") = Raise ValueError
  /\ int_of_str (lit "-") = Raise ValueError
  /\ int_of_str (lit "5x") = Raise ValueError
  /\ int_of_str [31; 53]%N = Raise ValueError
  /\ int_of_str [160; 53]%N = Ok 5%Z
  /\ str_int (-120) = lit "-120" /\ str_int 0 = lit "0" /\ str_int 4096 = lit "4096".
Proof. vm_compute. repeat split. Qed.

Example split_examples :
  split (lit "a==b") 61%N = [lit "a"; lit ""; lit "b"]
  /\ split (lit "") 61%N = [lit ""]
  /\ split (lit "=") 61%N = [lit ""; lit ""].
Proof. vm_compute. repeat split. Qed.

Example strptime_examples :
  strptime (lit "210101010101000000") DATETIME_FORMAT = Ok new_year_2021
  /\ strptime (lit "21111011") DATETIME_FORMAT = Ok (mk_datetime 2021 1 1 1 0 1 100000)
  /\ strptime (lit "2101010101010000001") DATETIME_FORMAT = Raise ValueError
  /\ strptime (lit "21010101010100") DATETIME_FORMAT = Ok new_year_2021
  /\ strptime (lit "210230010101000000") DATETIME_FORMAT = Raise ValueError
  /\ strptime (lit "210101010160000000") DATETIME_FORMAT = Raise ValueError
  /\ strptime (lit "690101010101000000") DATETIME_FORMAT = Ok (mk_datetime 1969 1 1 1 1 1 0)
  /\ strptime (lit "680101010101000000") DATETIME_FORMAT = Ok (mk_datetime 2068 1 1 1 1 1 0)
  /\ strptime (lit "21 10101011") DATETIME_FORMAT = Raise ValueError
  /\ strptime (lit "000101000000000000") DATETIME_FORMAT = Ok (mk_datetime 2000 1 1 0 0 0 0)
  /\ strptime (lit "") DATETIME_FORMAT = Raise ValueError.
Proof. vm_compute. repeat split. Qed.

(** ** The BLOCK transaction *)

Lemma format_block (a1 a2 a3 a4 a5 : pyobj) :
  format BLOCK_TEMPLATE [a1; a2; a3; a4; a5] =
  Ok (lit "BLOCK=" ++ str a1 ++ lit "=" ++ str a2 ++ lit "=" ++ str a3
      ++ lit "=" ++ str a4 ++ lit "=" ++ str a5).
Proof.
  rewrite <- (app_nil_r (str a5)). reflexivity.
Qed.

Lemma format_broadcast_url (tx : pystr) :
  format BROADCAST_URL [PStr tx] =
  Ok (lit "http://localhost:26657/broadcast_tx_commit?tx=" ++ [DQUOTE] ++ tx
      ++ [DQUOTE]).
Proof. reflexivity. Qed.

(** C5: the transaction string of [send_device_location] is "BLOCK=", the
    decimal device id, the location, the timestamp in DATETIME_FORMAT,
    "True" or "False" and the signature in hexadecimal, joined by "=" with
    no escaping; it is what the operation sends, between double quotes, to
    the broadcast endpoint. *)
Theorem transaction_string_layout (w : World) (device_id : Z)
    (location : pystr) (now : datetime) (destruct : bool)
    (signing_key : SigningKey) :
  transaction_string device_id location now destruct signing_key =
    (digest <- compute_hash device_id location now destruct ;;
     signature <- sign signing_key digest ;;
     Ok (lit "BLOCK=" ++ str_int device_id ++ lit "=" ++ location ++ lit "="
         ++ strftime now DATETIME_FORMAT ++ lit "=" ++ str_bool destruct
         ++ lit "=" ++ hex signature))%py
  /\ send_device_location_body w device_id location signing_key destruct =
    (tx <- transaction_string device_id location (datetime_now w) destruct
             signing_key ;;
     response <- requests_get w
       (lit "http://localhost:26657/broadcast_tx_commit?tx=" ++ [DQUOTE] ++ tx
        ++ [DQUOTE]) ;;
     dict <- json_loads w response ;;
     check_tx_result dict)%py.
Proof.
  split.
  - unfold transaction_string.
    destruct (compute_hash device_id location now destruct) as [digest|e];
      cbn [bind]; [|reflexivity].
    destruct (sign signing_key digest) as [signature|e]; cbn [bind];
      [|reflexivity].
    apply format_block.
  - unfold send_device_location_body.
    destruct (transaction_string _ _ _ _ _) as [tx|e]; cbn [bind];
      [|reflexivity].
    now rewrite format_broadcast_url.
Qed.

Example transaction_string_example :
  transaction_string 7 (lit "siteA") new_year_2021 false
    {| sign := fun _ => Ok [xde; xad; x0f] |}
  = Ok (lit "BLOCK=7=siteA=210101010101000000=False=dead0f").
Proof. reflexivity. Qed.

(** ** Exceptions become failure results *)

Lemma try_except_guarded {A} (body : result A) (failure : A) :
  guarded body (try_except body (handlers failure)) failure.
Proof.
  unfold guarded, try_except, handlers, except_all, quit.
  destruct body as [v|e]; [|destruct e]; cbn;
    repeat split; intros; try discriminate; congruence.
Qed.

(** C2: in each of the four operations, whatever the network call, the
    parsing of the response and the decoding of its payload do, an exception
    other than KeyboardInterrupt becomes the failure result of the operation
    and does not reach the caller; on KeyboardInterrupt the operation calls
    [quit()], whose SystemExit is the only exception that leaves it. *)
Theorem exceptions_become_failures (w : World) (location : pystr)
    (device_id : Z) (signing_key : SigningKey) (destruct : bool) :
  guarded (allocate_device_id_body w location)
          (allocate_device_id w location) (false, (-1)%Z)
  /\ guarded (send_device_location_body w device_id location signing_key destruct)
             (send_device_location w device_id location signing_key destruct)
             (false, UNEXPECTED_ERROR)
  /\ guarded (query_number_of_devices_body w)
             (query_number_of_devices w) (false, UNEXPECTED_ERROR, (-1)%Z)
  /\ guarded (query_device_information_body w device_id)
             (query_device_information w device_id)
             (false, UNEXPECTED_ERROR, []).
Proof.
  split; [|split; [|split]]; apply try_except_guarded.
Qed.

Example four_operations_examples :
  (* connection refused *)
  allocate_device_id (failing (OtherError "ConnectionError")) (lit "siteA")
    = Ok (false, (-1)%Z)
  /\ send_device_location (failing (OtherError "ConnectionError")) 3
       (lit "siteA") sample_key false = Ok (false, UNEXPECTED_ERROR)
  /\ query_number_of_devices (failing (OtherError "ConnectionError"))
     = Ok (false, UNEXPECTED_ERROR, (-1)%Z)
  /\ query_device_information (failing (OtherError "ConnectionError")) 3
     = Ok (false, UNEXPECTED_ERROR, [])
  (* the response is JSON, but no object *)
  /\ allocate_device_id (answering (JList [])) (lit "siteA") = Ok (false, (-1)%Z)
  /\ query_number_of_devices (answering (JStr (lit "x")))
     = Ok (false, UNEXPECTED_ERROR, (-1)%Z)
  (* the user interrupts the request *)
  /\ query_device_information (failing KeyboardInterrupt) 3 = Raise SystemExit
  /\ send_device_location (failing KeyboardInterrupt) 3 (lit "siteA")
       sample_key false = Raise SystemExit
  (* a location that cannot be encoded *)
  /\ send_device_location (answering JNull) 3 [0xD800%N] sample_key false
     = Ok (false, UNEXPECTED_ERROR)
  (* well-formed answers *)
  /\ query_number_of_devices
       (answering (query_response (JInt 0) (JStr []) (JStr [])
                     (base64_str (lit "10"))))
     = Ok (true, JStr [], 10%Z)
  /\ allocate_device_id
       (answering (broadcast_response (JInt 0) (JStr []) (base64_str (lit "5"))))
       (lit "siteA")
     = Ok (true, 5%Z)
  /\ allocate_device_id
       (answering (broadcast_response (JInt 1) (JStr (lit "no")) JNull))
       (lit "siteA")
     = Ok (false, (-1)%Z)
  /\ query_device_information
       (answering (query_response (JInt 0) (JStr []) (JStr (lit "ok"))
                     (base64_str two_visits))) 3
     = Ok (true, JStr (lit "ok"),
           [(lit "siteA", mk_datetime 2021 1 1 1 1 1 0);
            (lit "siteB", mk_datetime 2021 1 2 2 2 2 0)]).
Proof. vm_compute. repeat split. Qed.

(** ** Responses of the network *)

Lemma format_allocate_url (location : pystr) (now : datetime) :
  format ALLOCATE_URL [PStr location; PStr (strftime now DATETIME_FORMAT)] =
  Ok (allocate_url location now).
Proof. reflexivity. Qed.

Lemma format_history_url (device_id : Z) :
  format HISTORY_URL [PInt device_id] = Ok (history_url device_id).
Proof. reflexivity. Qed.

Ltac step H := rewrite H; cbn [bind].

(** C6: on a broadcast response that has a check-stage status code and log,
    [send_device_location] returns (False, log) with the log of the network
    as it is when the code is not zero, and (True, "") when it is zero. *)
Theorem check_stage_decides (w : World) (device_id : Z) (location : pystr)
    (signing_key : SigningKey) (destruct : bool)
    (tx : pystr) (response : bytes) (dict : json) (code : Z) (log : json) :
  transaction_string device_id location (datetime_now w) destruct signing_key
    = Ok tx ->
  requests_get w (broadcast_url tx) = Ok response ->
  json_loads w response = Ok dict ->
  getitem3 dict "result" "check_tx" "code" = Ok (JInt code) ->
  getitem3 dict "result" "check_tx" "log" = Ok log ->
  send_device_location w device_id location signing_key destruct =
  if (code =? 0)%Z then Ok (true, JStr []) else Ok (false, log).
Proof.
  intros Htx Hget Hjson Hcode Hlog.
  unfold send_device_location, send_device_location_body.
  step Htx. rewrite format_broadcast_url. cbn [bind].
  fold (broadcast_url tx). step Hget. step Hjson.
  unfold check_tx_result. step Hcode. cbn [truthy].
  destruct (code =? 0)%Z; cbn [negb]; [reflexivity|].
  step Hlog. reflexivity.
Qed.

Lemma check_stage_decides_witness :
  send_device_location
    (answering (broadcast_response (JInt 4) (JStr (lit "bad signature")) JNull))
    7 (lit "siteA") sample_key false
  = Ok (false, JStr (lit "bad signature"))
  /\ send_device_location
       (answering (broadcast_response (JInt 0) (JStr (lit "ignored")) JNull))
       7 (lit "siteA") sample_key false
     = Ok (true, JStr []).
Proof.
  split.
  - apply (check_stage_decides
             (answering (broadcast_response (JInt 4) (JStr (lit "bad signature")) JNull))
             7 (lit "siteA") sample_key false
             (lit "BLOCK=7=siteA=210101010101000000=False=dead0f") []
             (broadcast_response (JInt 4) (JStr (lit "bad signature")) JNull)
             4 (JStr (lit "bad signature"))); reflexivity.
  - apply (check_stage_decides
             (answering (broadcast_response (JInt 0) (JStr (lit "ignored")) JNull))
             7 (lit "siteA") sample_key false
             (lit "BLOCK=7=siteA=210101010101000000=False=dead0f") []
             (broadcast_response (JInt 0) (JStr (lit "ignored")) JNull)
             0 (JStr (lit "ignored"))); reflexivity.
Defined.

(** C9: on a success response (status code zero) whose value is empty (the
    empty string, or any value that [if] takes for false, such as null),
    [query_device_information] returns success, the info of the response and
    an empty list of visits. *)
Theorem empty_history (w : World) (device_id : Z) (response : bytes)
    (dict message value info : json) :
  requests_get w (history_url device_id) = Ok response ->
  json_loads w response = Ok dict ->
  getitem2 dict "result" "response" = Ok message ->
  getitem message "code" = Ok (JInt 0) ->
  getitem message "value" = Ok value ->
  truthy value = false ->
  getitem message "info" = Ok info ->
  query_device_information w device_id = Ok (true, info, []).
Proof.
  intros Hget Hjson Hmsg Hcode Hvalue Hempty Hinfo.
  unfold query_device_information, query_device_information_body.
  rewrite format_history_url. cbn [bind].
  step Hget. step Hjson. step Hmsg. step Hcode. cbn [truthy Z.eqb negb].
  step Hvalue. rewrite Hempty. cbn [bind]. step Hinfo. reflexivity.
Qed.

Lemma empty_history_witness :
  query_device_information
    (answering (query_response (JInt 0) (JStr []) (JStr (lit "no visits")) (JStr [])))
    3
  = Ok (true, JStr (lit "no visits"), []).
Proof.
  apply (empty_history
           (answering (query_response (JInt 0) (JStr []) (JStr (lit "no visits"))
                         (JStr [])))
           3 []
           (query_response (JInt 0) (JStr []) (JStr (lit "no visits")) (JStr []))
           (dict_of [("code"%string, JInt 0); ("log"%string, JStr []);
                     ("info"%string, JStr (lit "no visits"));
                     ("value"%string, JStr [])])
           (JStr []) (JStr (lit "no visits"))); reflexivity.
Defined.

(** C4: on a success response whose value is the base64 form of
    "siteA=210101010101000000=siteB=210102020202000000",
    [query_device_information] returns the two visits ("siteA",
    2021-01-01 01:01:01.000000) and ("siteB", 2021-01-02 02:02:02.000000),
    in the order of the payload. *)
Theorem two_visits_decoded (w : World) (device_id : Z) (response : bytes)
    (dict message info : json) :
  requests_get w (history_url device_id) = Ok response ->
  json_loads w response = Ok dict ->
  getitem2 dict "result" "response" = Ok message ->
  getitem message "code" = Ok (JInt 0) ->
  getitem message "value" = Ok (base64_str two_visits) ->
  getitem message "info" = Ok info ->
  query_device_information w device_id =
  Ok (true, info,
      [(lit "siteA", mk_datetime 2021 1 1 1 1 1 0);
       (lit "siteB", mk_datetime 2021 1 2 2 2 2 0)]).
Proof.
  intros Hget Hjson Hmsg Hcode Hvalue Hinfo.
  unfold query_device_information, query_device_information_body.
  rewrite format_history_url. cbn [bind].
  step Hget. step Hjson. step Hmsg. step Hcode. cbn [truthy Z.eqb negb].
  step Hvalue.
  assert (Hdec : (if truthy (base64_str two_visits)
                  then decode_history (base64_str two_visits) else Ok [])
                 = Ok [(lit "siteA", mk_datetime 2021 1 1 1 1 1 0);
                       (lit "siteB", mk_datetime 2021 1 2 2 2 2 0)])
    by (vm_compute; reflexivity).
  step Hdec. step Hinfo. reflexivity.
Qed.

Lemma two_visits_decoded_witness :
  query_device_information
    (answering (query_response (JInt 0) (JStr []) (JStr (lit "ok"))
                  (base64_str two_visits))) 3
  = Ok (true, JStr (lit "ok"),
        [(lit "siteA", mk_datetime 2021 1 1 1 1 1 0);
         (lit "siteB", mk_datetime 2021 1 2 2 2 2 0)]).
Proof.
  apply (two_visits_decoded
           (answering (query_response (JInt 0) (JStr []) (JStr (lit "ok"))
                         (base64_str two_visits)))
           3 []
           (query_response (JInt 0) (JStr []) (JStr (lit "ok"))
              (base64_str two_visits))
           (dict_of [("code"%string, JInt 0); ("log"%string, JStr []);
                     ("info"%string, JStr (lit "ok"));
                     ("value"%string, base64_str two_visits)])
           (JStr (lit "ok"))); reflexivity.
Defined.

(** ** A payload with an odd number of fields *)

Lemma scan_digits_raises (s : pystr) :
  forall (prev : bool) (value : N) (digits : nat) (e : exn),
    scan_digits s prev value digits = Raise e -> e = ValueError.
Proof.
  induction s as [|c s IH]; intros prev value digits e; cbn [scan_digits].
  - destruct prev; congruence.
  - destruct (is_digit c); [apply IH|].
    destruct (c =? UNDERSCORE)%N.
    + destruct prev; [congruence | apply IH].
    + destruct prev; congruence.
Qed.

Lemma int_of_str_raises (s : pystr) (e : exn) :
  int_of_str s = Raise e -> e = ValueError.
Proof.
  unfold int_of_str.
  destruct (parse_sign _) as [negative s0].
  destruct (starts_with_underscore s0); [congruence|].
  destruct (scan_digits s0 false 0 0) as [[[value digits] rest]|e'] eqn:E;
    cbn [bind].
  - destruct (digits =? 0)%nat; [congruence|].
    destruct (skip_spaces rest); congruence.
  - intros H. injection H as <-. eapply scan_digits_raises, E.
Qed.

Lemma convert_field_raises (t : datetime) (name : ascii) (text : pystr) (e : exn) :
  convert_field t name text = Raise e -> e = ValueError.
Proof.
  unfold convert_field.
  destruct name as [[] [] [] [] [] [] [] []]; try discriminate;
    match goal with
    | |- context [int_of_str ?s] =>
        destruct (int_of_str s) as [n|e'] eqn:E; cbn [bind];
        [discriminate
        | intros H; injection H as <-; exact (int_of_str_raises _ _ E)]
    end.
Qed.

Lemma convert_fields_raises (found : list (ascii * pystr)) :
  forall (t : datetime) (e : exn),
    convert_fields t found = Raise e -> e = ValueError.
Proof.
  induction found as [|[name text] found IH]; intros t e; cbn [convert_fields];
    [discriminate|].
  destruct (convert_field t name text) as [t'|e'] eqn:E; cbn [bind].
  - apply IH.
  - intros H. injection H as <-. exact (convert_field_raises _ _ _ _ E).
Qed.

Lemma compile_format_raises_step (fmt : string) :
  forall e : exn,
    (compile_format fmt = Raise e -> e = ValueError)
    /\ (forall c, compile_format (String c fmt) = Raise e -> e = ValueError).
Proof.
  induction fmt as [|c' rest IH]; intros e.
  - split; [discriminate|].
    intros c. cbn [compile_format].
    destruct c as [[] [] [] [] [] [] [] []]; congruence.
  - destruct (IH e) as [IHrest IHcons]. split; [apply IHcons|].
    intros c. cbn [compile_format].
    destruct c as [[] [] [] [] [] [] [] []]; try congruence.
    destruct (directive_regex c'); [|congruence].
    destruct (compile_format rest) as [items|e'] eqn:E; cbn [bind];
      [discriminate|].
    intros H. injection H as <-. exact (IHrest eq_refl).
Qed.

Lemma compile_format_raises (fmt : string) (e : exn) :
  compile_format fmt = Raise e -> e = ValueError.
Proof. apply compile_format_raises_step. Qed.

Lemma strptime_raises (s : pystr) (fmt : string) (e : exn) :
  strptime s fmt = Raise e -> e = ValueError.
Proof.
  unfold strptime.
  destruct (compile_format fmt) as [items|e'] eqn:E; cbn [bind];
    [|intros H; injection H as <-; exact (compile_format_raises _ _ E)].
  destruct (match_groups (map snd items) s) as [[found [|c rest]]|];
    try congruence.
  destruct (convert_fields _ _) as [t|e'] eqn:Ef; cbn [bind];
    [|intros H; injection H as <-; exact (convert_fields_raises _ _ _ Ef)].
  unfold new_datetime. destruct (valid_datetime _); congruence.
Qed.

Lemma index_raises {A} (l : list A) (i : nat) (e : exn) :
  index l i = Raise e -> e = IndexError /\ (length l <= i)%nat.
Proof.
  unfold index. destruct (nth_error l i) eqn:E; [discriminate|].
  intros H. injection H as <-. split; [reflexivity|].
  now apply nth_error_None.
Qed.

(** The loop raises nothing but IndexError and ValueError. *)
Lemma history_loop_raises (data : list pystr) (indices : list nat) :
  forall (acc : list (pystr * datetime)) (e : exn),
    history_loop data indices acc = Raise e ->
    e = IndexError \/ e = ValueError.
Proof.
  induction indices as [|i indices IH]; intros acc e; cbn [history_loop];
    [discriminate|].
  destruct (index data i) as [location|e1] eqn:E1; cbn [bind];
    [|intros H; injection H as <-; left; exact (proj1 (index_raises _ _ _ E1))].
  destruct (index data (i + 1)) as [text|e2] eqn:E2; cbn [bind];
    [|intros H; injection H as <-; left; exact (proj1 (index_raises _ _ _ E2))].
  destruct (strptime text DATETIME_FORMAT) as [t|e3] eqn:E3; cbn [bind];
    [apply IH|].
  intros H. injection H as <-. right. exact (strptime_raises _ _ _ E3).
Qed.

(** When the loop ends normally, every index it visited had a successor in
    the list. *)
Lemma history_loop_pairs (data : list pystr) (indices : list nat) :
  forall (acc r : list (pystr * datetime)),
    history_loop data indices acc = Ok r ->
    forall i, In i indices -> (i + 1 < length data)%nat.
Proof.
  induction indices as [|j indices IH]; intros acc r Hr i Hi; [destruct Hi|].
  cbn [history_loop] in Hr.
  destruct (index data j) as [location|e1]; cbn [bind] in Hr; [|discriminate].
  destruct (index data (j + 1)) as [text|e2] eqn:E2; cbn [bind] in Hr;
    [|discriminate].
  destruct (strptime text DATETIME_FORMAT) as [t|e3]; cbn [bind] in Hr;
    [|discriminate].
  destruct Hi as [<-|Hi]; [|exact (IH _ _ Hr i Hi)].
  unfold index in E2. destruct (nth_error data (j + 1)) eqn:En; [|discriminate].
  apply nth_error_Some. congruence.
Qed.

Lemma range_last_of_odd (n : nat) :
  Nat.odd n = true -> In (n - 1)%nat (range 0 n 2).
Proof.
  intros Hodd. apply Nat.odd_spec in Hodd. destruct Hodd as [m ->].
  unfold range. apply in_map_iff. exists m. split; [lia|].
  apply in_seq.
  replace (2 * m + 1 - 0 + (2 - 1))%nat with ((m + 1) * 2)%nat by lia.
  rewrite Nat.div_mul by lia. lia.
Qed.

Lemma history_loop_odd (data : list pystr) :
  Nat.odd (length data) = true ->
  exists e, history_loop data (range 0 (length data) 2) [] = Raise e
            /\ (e = IndexError \/ e = ValueError).
Proof.
  intros Hodd.
  destruct (history_loop data (range 0 (length data) 2) []) as [r|e] eqn:E.
  - pose proof (history_loop_pairs _ _ _ _ E _ (range_last_of_odd _ Hodd)) as H.
    apply Nat.odd_spec in Hodd. destruct Hodd as [m Hm]. lia.
  - exists e. split; [reflexivity|]. exact (history_loop_raises _ _ _ _ E).
Qed.

(** C10: on a success response whose value is not empty and decodes to a
    text that "=" splits into an odd number of fields,
    [query_device_information] returns (False, "unexpected error", []): the
    loop ends in an exception (the IndexError of the field without a
    partner, or before it the ValueError of a timestamp that does not parse),
    which the bare [except] turns into the failure result; no visit is
    returned. *)
Theorem odd_fields_fail (w : World) (device_id : Z) (response : bytes)
    (dict message value : json) (raw : bytes) (text : pystr) :
  requests_get w (history_url device_id) = Ok response ->
  json_loads w response = Ok dict ->
  getitem2 dict "result" "response" = Ok message ->
  getitem message "code" = Ok (JInt 0) ->
  getitem message "value" = Ok value ->
  truthy value = true ->
  b64decode value = Ok raw ->
  decode raw BYTE_ENCODING = Ok text ->
  Nat.odd (length (split text EQUALS)) = true ->
  query_device_information w device_id = Ok (false, UNEXPECTED_ERROR, [])
  /\ exists e, query_device_information_body w device_id = Raise e
               /\ (e = IndexError \/ e = ValueError).
Proof.
  intros Hget Hjson Hmsg Hcode Hvalue Hfull Hraw Htext Hodd.
  destruct (history_loop_odd _ Hodd) as (e & He & Hkind).
  assert (Hbody : query_device_information_body w device_id = Raise e).
  { unfold query_device_information_body.
    rewrite format_history_url. cbn [bind].
    step Hget. step Hjson. step Hmsg. step Hcode. cbn [truthy Z.eqb negb].
    step Hvalue. rewrite Hfull. unfold decode_history.
    step Hraw. step Htext. step He. reflexivity. }
  split; [|exists e; split; assumption].
  unfold query_device_information. rewrite Hbody.
  destruct Hkind as [-> | ->]; reflexivity.
Qed.

Lemma odd_fields_fail_witness :
  query_device_information
    (answering (query_response (JInt 0) (JStr []) (JStr (lit "ok"))
                  (base64_str (lit "siteA=210101010101000000=siteB")))) 3
  = Ok (false, UNEXPECTED_ERROR, []).
Proof.
  refine (proj1 (odd_fields_fail
           (answering (query_response (JInt 0) (JStr []) (JStr (lit "ok"))
                         (base64_str (lit "siteA=210101010101000000=siteB"))))
           3 []
           (query_response (JInt 0) (JStr []) (JStr (lit "ok"))
              (base64_str (lit "siteA=210101010101000000=siteB")))
           (dict_of [("code"%string, JInt 0); ("log"%string, JStr []);
                     ("info"%string, JStr (lit "ok"));
                     ("value"%string,
                      base64_str (lit "siteA=210101010101000000=siteB"))])
           (base64_str (lit "siteA=210101010101000000=siteB"))
           (ascii_bytes (lit "siteA=210101010101000000=siteB"))
           (lit "siteA=210101010101000000=siteB")
           _ _ _ _ _ _ _ _ _)); reflexivity.
Defined.

(** ** Bytes and bounded checks *)

Lemma to_N_byte_of_N (n : N) : Byte.to_N (byte_of_N n) = (n mod 256)%N.
Proof.
  unfold byte_of_N. destruct (Byte.of_N (n mod 256)) as [b|] eqn:E.
  - now apply Byte.to_of_N.
  - apply Byte.of_N_None_iff in E.
    pose proof (N.mod_lt n 256 ltac:(lia)). lia.
Qed.

Lemma byte_of_to_N (b : byte) : byte_of_N (Byte.to_N b) = b.
Proof.
  unfold byte_of_N. pose proof (Byte.to_N_bounded b).
  rewrite N.mod_small by lia. now rewrite Byte.of_to_N.
Qed.

Lemma byte_of_N_eq (n : N) (b : byte) :
  (n mod 256)%N = Byte.to_N b -> byte_of_N n = b.
Proof.
  intros H. unfold byte_of_N. rewrite H. now rewrite Byte.of_to_N.
Qed.

(** A property checked on 0 .. k-1 holds below k. *)
Lemma forall_below (P : N -> bool) (k : nat) :
  forallb P (map N.of_nat (seq 0 k)) = true ->
  forall n, (n < N.of_nat k)%N -> P n = true.
Proof.
  intros H n Hn. rewrite forallb_forall in H. apply H.
  apply in_map_iff. exists (N.to_nat n). split; [apply N2Nat.id|].
  apply in_seq. lia.
Qed.

Lemma forall_below2 (P : N -> N -> bool) (k1 k2 : nat) :
  forallb (fun a => forallb (P a) (map N.of_nat (seq 0 k2)))
          (map N.of_nat (seq 0 k1)) = true ->
  forall a b, (a < N.of_nat k1)%N -> (b < N.of_nat k2)%N -> P a b = true.
Proof.
  intros H a b Ha Hb.
  apply (forall_below (P a) k2); [|exact Hb].
  apply (forall_below (fun a => forallb (P a) (map N.of_nat (seq 0 k2))) k1 H a Ha).
Qed.

(** ** base64: decoding undoes encoding *)

Lemma b64_char_value (s : N) :
  (s < 64)%N ->
  b64_value (b64_char s) = Some s /\ Byte.eqb (b64_char s) BASE64_PAD = false.
Proof.
  intros Hs.
  pose proof (forall_below
    (fun s => match b64_value (b64_char s) with
              | Some v => (v =? s)%N
              | None => false
              end && negb (Byte.eqb (b64_char s) BASE64_PAD))
    64 ltac:(vm_compute; reflexivity) s Hs) as H.
  cbv beta in H. apply andb_true_iff in H. destruct H as [Hv Hp].
  split; [|now apply negb_true_iff].
  destruct (b64_value (b64_char s)) as [v|]; [|discriminate].
  apply N.eqb_eq in Hv. now subst.
Qed.

Lemma first_byte_back (a x : N) :
  (a < 256)%N -> (x < 16)%N ->
  (N.lor (N.shiftl (a / 4) 2) (N.shiftr ((a mod 4) * 16 + x) 4) mod 256 = a)%N.
Proof.
  intros Ha Hx. apply N.eqb_eq.
  exact (forall_below2
    (fun a x => (N.lor (N.shiftl (a / 4) 2)
                       (N.shiftr ((a mod 4) * 16 + x) 4) mod 256 =? a)%N)
    256 16 ltac:(vm_compute; reflexivity) a x Ha Hx).
Qed.

Lemma second_byte_back (am b y : N) :
  (am < 4)%N -> (b < 256)%N -> (y < 4)%N ->
  (N.lor (N.shiftl (N.land (am * 16 + b / 16) 0x0f) 4)
         (N.shiftr ((b mod 16) * 4 + y) 2) mod 256 = b)%N.
Proof.
  intros Ham Hb Hy. apply N.eqb_eq.
  pose proof (forall_below2
    (fun b amy =>
       (N.lor (N.shiftl (N.land ((amy / 4) * 16 + b / 16) 0x0f) 4)
              (N.shiftr ((b mod 16) * 4 + amy mod 4) 2) mod 256 =? b)%N)
    256 16 ltac:(vm_compute; reflexivity) b (am * 4 + y)%N Hb ltac:(lia)) as H.
  cbv beta in H.
  replace ((am * 4 + y) / 4)%N with am in H
    by (apply N.div_unique with y; lia).
  replace ((am * 4 + y) mod 4)%N with y in H
    by (apply N.mod_unique with am; lia).
  exact H.
Qed.

Lemma third_byte_back (bm c : N) :
  (bm < 16)%N -> (c < 256)%N ->
  (N.lor (N.shiftl (N.land (bm * 4 + c / 64) 0x03) 6) (c mod 64) mod 256 = c)%N.
Proof.
  intros Hbm Hc. apply N.eqb_eq.
  exact (forall_below2
    (fun bm c => (N.lor (N.shiftl (N.land (bm * 4 + c / 64) 0x03) 6)
                        (c mod 64) mod 256 =? c)%N)
    16 256 ltac:(vm_compute; reflexivity) bm c Hbm Hc).
Qed.

Lemma sextets_small (a b : N) :
  (a < 256)%N -> (b < 256)%N ->
  (a / 4 < 64 /\ (a mod 4) * 16 + b / 16 < 64 /\ (a mod 16) * 4 + b / 64 < 64
   /\ a mod 64 < 64 /\ (a mod 4) * 16 < 64 /\ (a mod 16) * 4 < 64
   /\ a mod 4 < 4 /\ a mod 16 < 16 /\ b / 16 < 16 /\ b / 64 < 4)%N.
Proof.
  intros Ha Hb.
  pose proof (N.mod_lt a 4 ltac:(lia)). pose proof (N.mod_lt a 16 ltac:(lia)).
  pose proof (N.mod_lt a 64 ltac:(lia)).
  assert (a / 4 < 64)%N by (apply N.Div0.div_lt_upper_bound; lia).
  assert (b / 16 < 16)%N by (apply N.Div0.div_lt_upper_bound; lia).
  assert (b / 64 < 4)%N by (apply N.Div0.div_lt_upper_bound; lia).
  set (x := (a mod 4)%N) in *. set (y := (a mod 16)%N) in *.
  set (z := (a mod 64)%N) in *. set (u := (b / 16)%N) in *.
  set (v := (b / 64)%N) in *. set (t := (a / 4)%N) in *.
  clearbody x y z u v t. lia.
Qed.

Lemma a2b_loop_char (s : N) (rest : bytes) (quad_pos : nat) (leftchar : N)
    (pads : nat) :
  (s < 64)%N ->
  a2b_loop (b64_char s :: rest) quad_pos leftchar pads =
  match quad_pos with
  | 0%nat => a2b_loop rest 1 s 0
  | 1%nat =>
      (out <- a2b_loop rest 2 (N.land s 0x0f) 0 ;;
       Ok (byte_of_N (N.lor (N.shiftl leftchar 2) (N.shiftr s 4)) :: out))%py
  | 2%nat =>
      (out <- a2b_loop rest 3 (N.land s 0x03) 0 ;;
       Ok (byte_of_N (N.lor (N.shiftl leftchar 4) (N.shiftr s 2)) :: out))%py
  | _ =>
      (out <- a2b_loop rest 0 0 0 ;;
       Ok (byte_of_N (N.lor (N.shiftl leftchar 6) s) :: out))%py
  end.
Proof.
  intros Hs. destruct (b64_char_value s Hs) as [Hv Hp].
  cbn [a2b_loop]. now rewrite Hp, Hv.
Qed.

Lemma a2b_loop_pads (leftchar : N) :
  a2b_loop [BASE64_PAD; BASE64_PAD] 2 leftchar 0 = Ok []
  /\ a2b_loop [BASE64_PAD] 3 leftchar 0 = Ok [].
Proof. split; reflexivity. Qed.

Lemma a2b_loop_b64encode (n : nat) :
  forall bs : bytes,
    (length bs <= n)%nat -> a2b_loop (b64encode bs) 0 0 0 = Ok bs.
Proof.
  induction n as [|n IH]; intros bs Hlen.
  - destruct bs; [reflexivity | cbn in Hlen; lia].
  - destruct bs as [|a [|b [|c rest]]]; [reflexivity| | |].
    + pose proof (Byte.to_N_bounded a) as Ha.
      destruct (sextets_small (Byte.to_N a) 0 ltac:(lia) ltac:(lia))
        as (H1 & _ & _ & _ & H2 & _).
      cbn [b64encode]. rewrite !a2b_loop_char by assumption.
      rewrite (proj1 (a2b_loop_pads _)). cbn [bind].
      do 2 f_equal. apply byte_of_N_eq.
      rewrite <- (N.add_0_r (Byte.to_N a mod 4 * 16)).
      apply first_byte_back; lia.
    + pose proof (Byte.to_N_bounded a) as Ha.
      pose proof (Byte.to_N_bounded b) as Hb.
      destruct (sextets_small (Byte.to_N a) (Byte.to_N b) ltac:(lia) ltac:(lia))
        as (H1 & H2 & _ & _ & _ & _ & H3 & _ & H4 & _).
      destruct (sextets_small (Byte.to_N b) 0 ltac:(lia) ltac:(lia))
        as (_ & _ & _ & _ & _ & H5 & _).
      cbn [b64encode]. rewrite !a2b_loop_char by assumption.
      rewrite (proj2 (a2b_loop_pads _)). cbn [bind].
      f_equal. f_equal; [|f_equal]; apply byte_of_N_eq.
      * apply first_byte_back; lia.
      * rewrite <- (N.add_0_r (Byte.to_N b mod 16 * 4)).
        apply second_byte_back; lia.
    + pose proof (Byte.to_N_bounded a) as Ha.
      pose proof (Byte.to_N_bounded b) as Hb.
      pose proof (Byte.to_N_bounded c) as Hc.
      destruct (sextets_small (Byte.to_N a) (Byte.to_N b) ltac:(lia) ltac:(lia))
        as (H1 & H2 & _ & _ & _ & _ & H3 & _ & H4 & _).
      destruct (sextets_small (Byte.to_N b) (Byte.to_N c) ltac:(lia) ltac:(lia))
        as (_ & _ & H5 & _ & _ & _ & _ & H6 & _ & H7).
      destruct (sextets_small (Byte.to_N c) 0 ltac:(lia) ltac:(lia))
        as (_ & _ & _ & H8 & _).
      cbn [b64encode]. rewrite !a2b_loop_char by assumption.
      rewrite (IH rest) by (cbn [length] in Hlen; lia). cbn [bind].
      f_equal. f_equal; [|f_equal; [|f_equal]]; apply byte_of_N_eq.
      * apply first_byte_back; lia.
      * apply second_byte_back; lia.
      * apply third_byte_back; lia.
Qed.

Lemma a2b_base64_b64encode (bs : bytes) : a2b_base64 (b64encode bs) = Ok bs.
Proof. exact (a2b_loop_b64encode (length bs) bs (le_n _)). Qed.

Lemma b64_char_ascii (s : N) : (Byte.to_N (b64_char s) <? 128)%N = true.
Proof.
  unfold b64_char.
  destruct (N.ltb_spec s 26); [|destruct (N.ltb_spec s 52);
    [|destruct (N.ltb_spec s 62); [|destruct (s =? 62)%N; reflexivity]]];
    rewrite to_N_byte_of_N; apply N.ltb_lt;
    rewrite N.mod_small by lia; lia.
Qed.

Lemma b64encode_ascii (n : nat) :
  forall bs : bytes,
    (length bs <= n)%nat -> is_ascii (ascii_str (b64encode bs)) = true.
Proof.
  induction n as [|n IH]; intros bs Hlen.
  - destruct bs; [reflexivity | cbn in Hlen; lia].
  - destruct bs as [|a [|b [|c rest]]]; [reflexivity| | |];
      cbn [b64encode ascii_str map is_ascii forallb];
      rewrite ?b64_char_ascii; try reflexivity.
    cbn [andb]. apply (IH rest). cbn [length] in Hlen. lia.
Qed.

Lemma ascii_bytes_ascii_str (bs : bytes) : ascii_bytes (ascii_str bs) = bs.
Proof.
  unfold ascii_bytes, ascii_str. rewrite map_map.
  rewrite <- (map_id bs) at 2. apply map_ext, byte_of_to_N.
Qed.

(** [b64decode] undoes the base64 encoding of any bytes. *)
Lemma b64decode_b64encode (bs : bytes) :
  b64decode (JStr (ascii_str (b64encode bs))) = Ok bs.
Proof.
  cbn [b64decode]. rewrite (b64encode_ascii (length bs) bs (le_n _)).
  rewrite ascii_bytes_ascii_str. apply a2b_base64_b64encode.
Qed.


(** ** [int] undoes [str] *)

Lemma scan_digits_all (s : pystr) :
  forall (value : N) (digits : nat),
    forallb is_digit s = true ->
    scan_digits s false value digits =
    Ok (digits_value value s, (digits + length s)%nat, []).
Proof.
  induction s as [|c s IH]; intros value digits Hs; cbn [scan_digits].
  - cbn. now rewrite Nat.add_0_r.
  - cbn [forallb] in Hs. apply andb_true_iff in Hs. destruct Hs as [Hc Hs].
    rewrite Hc, (IH _ _ Hs). cbn [digits_value fold_left length].
    do 3 f_equal. lia.
Qed.

Lemma digits_value_digits_fuel (fuel : nat) :
  forall (n : N) (acc : pystr),
    (n < 10 ^ N.of_nat fuel)%N ->
    digits_value 0 (digits_fuel fuel n acc) = digits_value n acc.
Proof.
  induction fuel as [|fuel IH]; intros n acc Hn.
  - cbn in Hn. assert (n = 0%N) as -> by lia. reflexivity.
  - cbn [digits_fuel]. destruct (N.ltb_spec n 10) as [Hlt|Hge].
    + unfold digits_value, digit_char. cbn [fold_left].
      rewrite N.mod_small by exact Hlt. f_equal. lia.
    + rewrite IH.
      * unfold digits_value, digit_char. cbn [fold_left]. f_equal.
        pose proof (N.div_mod n 10 ltac:(lia)) as Hdm.
        set (q := (n / 10)%N) in *. set (r := (n mod 10)%N) in *.
        clearbody q r. lia.
      * apply N.Div0.div_lt_upper_bound.
        rewrite <- N.pow_succ_r'. rewrite <- Nat2N.inj_succ. exact Hn.
Qed.

Lemma str_N_fuel (n : N) : (n < 10 ^ N.of_nat (S (N.to_nat (N.log2 n))))%N.
Proof.
  rewrite Nat2N.inj_succ, N2Nat.id.
  destruct n as [|p]; [reflexivity|].
  pose proof (N.log2_spec (N.pos p) ltac:(lia)) as [_ Hlt].
  eapply N.lt_le_trans; [exact Hlt|].
  apply N.pow_le_mono_l. lia.
Qed.

Lemma digits_value_str_N (n : N) : digits_value 0 (str_N n) = n.
Proof.
  unfold str_N. rewrite digits_value_digits_fuel by apply str_N_fuel.
  reflexivity.
Qed.

Lemma str_N_cons (n : N) :
  exists c s, str_N n = c :: s /\ is_digit c = true.
Proof.
  pose proof (str_N_digits n) as Hd.
  pose proof (str_N_length n (S (N.to_nat (N.log2 n))) ltac:(lia)
                (str_N_fuel n)) as [Hlen _].
  destruct (str_N n) as [|c s]; [cbn in Hlen; lia|].
  exists c, s. split; [reflexivity|].
  cbn [forallb] in Hd. now apply andb_true_iff in Hd.
Qed.

Lemma digit_is_plain (c : codepoint) :
  is_digit c = true ->
  is_space c = false /\ (c =? 43)%N = false /\ (c =? 45)%N = false
  /\ (c =? UNDERSCORE)%N = false.
Proof.
  unfold is_digit, is_space, UNDERSCORE. intros H.
  apply andb_true_iff in H. destruct H as [Hlo Hhi].
  apply N.leb_le in Hlo. apply N.leb_le in Hhi.
  repeat split; try (apply N.eqb_neq; lia).
  apply orb_false_iff. split; [|apply N.eqb_neq; lia].
  apply andb_false_iff. right. apply N.leb_gt. lia.
Qed.

Lemma int_of_str_digits (c : codepoint) (s : pystr) :
  forallb is_digit (c :: s) = true ->
  int_of_str (c :: s) = Ok (Z.of_N (digits_value 0 (c :: s)))
  /\ int_of_str (45%N :: c :: s) = Ok (- Z.of_N (digits_value 0 (c :: s)))%Z.
Proof.
  intros Hd.
  pose proof (digits_are_ascii _ Hd) as Hascii.
  assert (Hc : is_digit c = true)
    by (cbn [forallb] in Hd; now apply andb_true_iff in Hd).
  destruct (digit_is_plain c Hc) as (Hsp & Hplus & Hminus & Hus).
  split; unfold int_of_str, transform_decimal_and_space.
  - rewrite Hascii. cbn [skip_spaces]. rewrite Hsp.
    cbn [parse_sign]. rewrite Hplus, Hminus.
    cbn [starts_with_underscore]. rewrite Hus.
    rewrite (scan_digits_all _ _ _ Hd). cbn [bind length Nat.add Nat.eqb skip_spaces].
    reflexivity.
  - assert (Hascii' : is_ascii (45%N :: c :: s) = true)
      by (unfold is_ascii in *; cbn [forallb] in *; exact Hascii).
    rewrite Hascii'. cbn [skip_spaces].
    change (is_space 45) with false. cbn [parse_sign].
    change (45 =? 43)%N with false. change (45 =? 45)%N with true.
    cbn [starts_with_underscore]. rewrite Hus.
    rewrite (scan_digits_all _ _ _ Hd). cbn [bind length Nat.add Nat.eqb skip_spaces].
    reflexivity.
Qed.


(** ** Allocation *)



(** ** UTF-8: decoding undoes encoding *)

Lemma split_sextets (c : N) :
  (c = 64 * (c / 64) + c mod 64
   /\ c = 4096 * (c / 4096) + 64 * ((c / 64) mod 64) + c mod 64
   /\ c = 262144 * (c / 262144) + 4096 * ((c / 4096) mod 64)
          + 64 * ((c / 64) mod 64) + c mod 64
   /\ c mod 64 < 64 /\ (c / 64) mod 64 < 64 /\ (c / 4096) mod 64 < 64)%N.
Proof.
  pose proof (N.div_mod c 64 ltac:(lia)) as H1.
  pose proof (N.div_mod (c / 64) 64 ltac:(lia)) as H2.
  pose proof (N.div_mod (c / 4096) 64 ltac:(lia)) as H3.
  pose proof (N.mod_lt c 64 ltac:(lia)).
  pose proof (N.mod_lt (c / 64) 64 ltac:(lia)).
  pose proof (N.mod_lt (c / 4096) 64 ltac:(lia)).
  replace (c / 64 / 64)%N with (c / 4096)%N in H2
    by (rewrite N.Div0.div_div; reflexivity).
  replace (c / 4096 / 64)%N with (c / 262144)%N in H3
    by (rewrite N.Div0.div_div; reflexivity).
  set (r0 := (c mod 64)%N) in *. set (r1 := ((c / 64) mod 64)%N) in *.
  set (r2 := ((c / 4096) mod 64)%N) in *.
  set (q1 := (c / 64)%N) in *. set (q2 := (c / 4096)%N) in *.
  set (q3 := (c / 262144)%N) in *.
  clearbody r0 r1 r2 q1 q2 q3. lia.
Qed.

Lemma Ok_inj {A} (a b : A) : Ok a = Ok b -> a = b.
Proof. congruence. Qed.

(** Decide the test at the head of the goal by arithmetic. *)
Ltac decide_head :=
  match goal with
  | |- (if ?t then _ else _) = _ =>
      first
        [ match t with
          | context [(?a =? ?b)%N] => destruct (N.eqb_spec a b)
          end
        | match t with
          | context [(?a <? ?b)%N] => destruct (N.ltb_spec a b)
          end
        | match t with
          | context [(?a <=? ?b)%N] => destruct (N.leb_spec a b)
          end ];
      try (exfalso; lia); cbn [andb]; cbv iota
  end.

Ltac decide_tests := repeat decide_head.

Lemma utf8_decode_char (c : codepoint) (bs rest : bytes) :
  utf8_encode_char c = Ok bs ->
  utf8_decode (bs ++ rest) = (s <- utf8_decode rest ;; Ok (c :: s))%py.
Proof.
  destruct (split_sextets c) as (H1 & H2 & H3 & Hr0 & Hr1 & Hr2).
  unfold utf8_encode_char.
  destruct (N.ltb_spec c 0x80) as [L1|L1];
    [|destruct (N.ltb_spec c 0x800) as [L2|L2];
      [|destruct (N.ltb_spec c 0x10000) as [L3|L3];
        [destruct ((0xD800 <=? c) && (c <=? 0xDFFF))%N eqn:Esur; [discriminate|]
        |destruct (N.ltb_spec c 0x110000) as [L4|L4]; [|discriminate]]]];
    intros E; apply Ok_inj in E; subst bs; cbn [app utf8_decode];
    unfold in_range, is_cont, in_range, cont;
    rewrite !to_N_byte_of_N.
  - rewrite N.mod_small by lia. decide_tests. reflexivity.
  - set (q := (c / 64)%N) in *. set (r := (c mod 64)%N) in *. clearbody q r.
    rewrite !N.mod_small by lia. decide_tests.
    replace ((192 + q - 192) * 64 + (128 + r - 128))%N with c by lia.
    reflexivity.
  - apply andb_false_iff in Esur.
    rewrite N.leb_gt, N.leb_gt in Esur.
    set (q := (c / 4096)%N) in *. set (r1 := ((c / 64) mod 64)%N) in *.
    set (r := (c mod 64)%N) in *. clearbody q r1 r.
    rewrite !N.mod_small by lia. decide_tests; cbn [andb];
      match goal with
      | |- context [(?x :: _)] =>
          replace x with c by lia; reflexivity
      end.
  - set (q := (c / 262144)%N) in *. set (r2 := ((c / 4096) mod 64)%N) in *.
    set (r1 := ((c / 64) mod 64)%N) in *. set (r := (c mod 64)%N) in *.
    clearbody q r2 r1 r.
    rewrite !N.mod_small by lia. decide_tests; cbn [andb];
      match goal with
      | |- context [(?x :: _)] =>
          replace x with c by lia; reflexivity
      end.
Qed.

Lemma utf8_decode_encode (s : pystr) :
  forall bs : bytes, utf8_encode s = Ok bs -> utf8_decode bs = Ok s.
Proof.
  induction s as [|c s IH]; intros bs; cbn [utf8_encode].
  - intros E. apply Ok_inj in E. now subst.
  - destruct (utf8_encode_char c) as [b|e] eqn:Ec; cbn [bind]; [|discriminate].
    destruct (utf8_encode s) as [bs'|e] eqn:Es; cbn [bind]; [|discriminate].
    intros E. apply Ok_inj in E. subst bs.
    rewrite (utf8_decode_char c b bs' Ec), (IH bs' eq_refl). reflexivity.
Qed.




(** ** Signing the digest *)

Lemma compute_hash_hashed_message (device_id : Z) (location : pystr)
    (timestamp : datetime) (destruct : bool) :
  compute_hash device_id location timestamp destruct =
  (m <- hashed_message device_id location timestamp destruct ;;
   Ok (Sha256.SHA256 m))%py.
Proof.
  unfold compute_hash, hashed_message, bytes_of_str, BYTE_ENCODING.
  cbn [String.eqb Ascii.eqb Bool.eqb].
  rewrite (utf8_encode_ascii _ (str_int_ascii device_id)).
  rewrite (utf8_encode_ascii _ (digits_are_ascii _ (wire_timestamp_digits timestamp))
           : utf8_encode (strftime timestamp DATETIME_FORMAT) = _).
  rewrite (utf8_encode_ascii _ (str_bool_ascii destruct)).
  cbn [bind]. destruct (utf8_encode location) as [loc|e]; cbn [bind]; [|reflexivity].
  f_equal.
  pose proof (Sha256Facts.digest_updates
                [ascii_bytes (str_int device_id); loc;
                 ascii_bytes (strftime timestamp DATETIME_FORMAT);
                 ascii_bytes (str_bool destruct)]) as E.
  cbn [fold_left concat] in E. rewrite app_nil_r in E. exact E.
Qed.






(** * Further properties of the four operations *)

(** ** The count query *)



(** [query_number_of_devices] returns (False, log, -1), with the log of the
    response as it is, when the status code is one that [if] takes for true
    (a number other than zero, but also a string that is not empty); the
    value of the response is not looked at. *)
Theorem number_query_rejected (w : World) (response : bytes)
    (dict message code log : json) :
  requests_get w NUMBER_URL = Ok response ->
  json_loads w response = Ok dict ->
  getitem2 dict "result" "response" = Ok message ->
  getitem message "code" = Ok code ->
  truthy code = true ->
  getitem message "log" = Ok log ->
  query_number_of_devices w = Ok (false, log, (-1)%Z).
Proof.
  intros Hget Hjson Hmsg Hcode Hnz Hlog.
  unfold query_number_of_devices, query_number_of_devices_body.
  step Hget. step Hjson. step Hmsg. step Hcode. rewrite Hnz.
  step Hlog. reflexivity.
Qed.

Lemma number_query_rejected_witness :
  query_number_of_devices
    (answering (query_response (JStr (lit "0")) (JStr (lit "unknown query"))
                  JNull JNull))
  = Ok (false, JStr (lit "unknown query"), (-1)%Z).
Proof.
  apply (number_query_rejected
           (answering (query_response (JStr (lit "0"))
                         (JStr (lit "unknown query")) JNull JNull))
           []
           (query_response (JStr (lit "0")) (JStr (lit "unknown query"))
              JNull JNull)
           (dict_of [("code"%string, JStr (lit "0"));
                     ("log"%string, JStr (lit "unknown query"));
                     ("info"%string, JNull); ("value"%string, JNull)])
           (JStr (lit "0")) (JStr (lit "unknown query"))); reflexivity.
Defined.

(** ** The history query *)

(** [query_device_information] returns (False, log, []), with the log of
    the response as it is, when the status code is one that [if] takes for
    true; neither the value nor the info of the response is looked at. *)
Theorem history_query_rejected (w : World) (device_id : Z) (response : bytes)
    (dict message code log : json) :
  requests_get w (history_url device_id) = Ok response ->
  json_loads w response = Ok dict ->
  getitem2 dict "result" "response" = Ok message ->
  getitem message "code" = Ok code ->
  truthy code = true ->
  getitem message "log" = Ok log ->
  query_device_information w device_id = Ok (false, log, []).
Proof.
  intros Hget Hjson Hmsg Hcode Hnz Hlog.
  unfold query_device_information, query_device_information_body.
  rewrite format_history_url. cbn [bind].
  step Hget. step Hjson. step Hmsg. step Hcode. rewrite Hnz.
  step Hlog. reflexivity.
Qed.

Lemma history_query_rejected_witness :
  query_device_information
    (answering (query_response (JInt 3) (JStr (lit "no such device"))
                  JNull JNull)) 9
  = Ok (false, JStr (lit "no such device"), []).
Proof.
  apply (history_query_rejected
           (answering (query_response (JInt 3) (JStr (lit "no such device"))
                         JNull JNull))
           9 []
           (query_response (JInt 3) (JStr (lit "no such device")) JNull JNull)
           (dict_of [("code"%string, JInt 3);
                     ("log"%string, JStr (lit "no such device"));
                     ("info"%string, JNull); ("value"%string, JNull)])
           (JInt 3) (JStr (lit "no such device"))); reflexivity.
Defined.

(** ** Inputs and responses the operations cannot use *)

Lemma utf8_encode_raises (s : pystr) (e : exn) :
  utf8_encode s = Raise e -> e = UnicodeEncodeError.
Proof.
  induction s as [|c s IH]; cbn [utf8_encode]; [discriminate|].
  destruct (utf8_encode_char c) as [b|e'] eqn:Ec; cbn [bind].
  - destruct (utf8_encode s) as [bs|e'']; cbn [bind]; [discriminate|].
    intros H. apply IH. congruence.
  - intros H. revert Ec. unfold utf8_encode_char.
    repeat match goal with
      | |- context [if ?t then _ else _] => destruct t
      end; congruence.
Qed.

(** A location that has no UTF-8 encoding (it holds a lone surrogate) makes
    [send_device_location] return (False, "unexpected error"), whatever the
    network would answer and whatever the key: the digest cannot be
    computed, so nothing is signed or sent. *)
Theorem unencodable_location_fails (w : World) (device_id : Z)
    (location : pystr) (signing_key : SigningKey) (destruct : bool) (e : exn) :
  utf8_encode location = Raise e ->
  send_device_location w device_id location signing_key destruct
  = Ok (false, UNEXPECTED_ERROR)
  /\ transaction_string device_id location (datetime_now w) destruct signing_key
     = Raise UnicodeEncodeError.
Proof.
  intros He. pose proof (utf8_encode_raises _ _ He) as ->.
  assert (Htx : transaction_string device_id location (datetime_now w) destruct
                  signing_key = Raise UnicodeEncodeError).
  { unfold transaction_string. rewrite compute_hash_hashed_message.
    unfold hashed_message. rewrite He. reflexivity. }
  split; [|exact Htx].
  unfold send_device_location, send_device_location_body.
  rewrite Htx. reflexivity.
Qed.

Lemma unencodable_location_fails_witness :
  send_device_location (answering JNull) 3 [0xD800%N] sample_key false
  = Ok (false, UNEXPECTED_ERROR).
Proof.
  exact (proj1 (unencodable_location_fails (answering JNull) 3 [0xD800%N]
                  sample_key false UnicodeEncodeError eq_refl)).
Defined.






(** ** The fields of the BLOCK transaction *)

Lemma split_no_sep (a : pystr) (sep : codepoint) :
  ~ In sep a -> split a sep = [a].
Proof.
  induction a as [|c a IH]; intros Hno; [reflexivity|].
  cbn [split]. destruct (N.eqb_spec c sep) as [->|Hne].
  - exfalso. apply Hno. now left.
  - rewrite IH; [reflexivity|]. intros Hin. apply Hno. now right.
Qed.

Lemma split_app_sep (a rest : pystr) (sep : codepoint) :
  ~ In sep a -> split (a ++ sep :: rest) sep = a :: split rest sep.
Proof.
  induction a as [|c a IH]; intros Hno; cbn [app split].
  - now rewrite N.eqb_refl.
  - destruct (N.eqb_spec c sep) as [->|Hne].
    + exfalso. apply Hno. now left.
    + rewrite IH; [reflexivity|]. intros Hin. apply Hno. now right.
Qed.


Lemma digits_without (s : pystr) (c : codepoint) :
  forallb is_digit s = true -> is_digit c = false -> ~ In c s.
Proof.
  intros Hs Hc Hin. rewrite forallb_forall in Hs.
  rewrite (Hs c Hin) in Hc. discriminate.
Qed.





(** ** What the digest does not tell apart *)






(** ** Reading back a wire timestamp *)

Lemma match_alt_app (a : list atom) :
  forall (s tail : pystr),
    (length a <= length s)%nat ->
    match_alt a (s ++ tail) =
    match match_alt a s with
    | Some (m, r) => Some (m, r ++ tail)
    | None => None
    end.
Proof.
  induction a as [|x a IH]; intros s tail Hlen; [reflexivity|].
  destruct s as [|c s]; [cbn in Hlen; lia|].
  cbn [app match_alt]. destruct (atom_matches x c); [|reflexivity].
  rewrite IH by (cbn in Hlen; lia).
  destruct (match_alt a s) as [[m r]|]; reflexivity.
Qed.

Lemma first_alt_app (g : list (list atom)) (s tail : pystr) :
  forallb (fun a => length a <=? length s)%nat g = true ->
  first_alt g (s ++ tail) =
  match first_alt g s with
  | Some (m, r) => Some (m, r ++ tail)
  | None => None
  end.
Proof.
  induction g as [|a g IH]; intros Hlen; [reflexivity|].
  cbn [forallb] in Hlen. apply andb_true_iff in Hlen.
  destruct Hlen as [Ha Hg]. apply Nat.leb_le in Ha.
  cbn [first_alt]. rewrite (match_alt_app a s tail Ha).
  destruct (match_alt a s) as [[m r]|]; [reflexivity | exact (IH Hg)].
Qed.

(** When the first alternative that matches leaves a rest the other groups
    match, backtracking has nothing to undo. *)
Lemma match_groups_first (g : list (list atom)) (gs : list (list (list atom)))
    (s m rest : pystr) (ms : list pystr) (r : pystr) :
  first_alt g s = Some (m, rest) ->
  match_groups gs rest = Some (ms, r) ->
  match_groups (g :: gs) s = Some (m :: ms, r).
Proof.
  intros Hfirst Hrest. cbn [match_groups].
  induction g as [|a g IH]; [discriminate|].
  cbn [first_alt] in Hfirst.
  destruct (match_alt a s) as [[m' rest']|].
  - apply (f_equal (fun o => match o with Some p => p | None => (m, rest) end))
      in Hfirst.
    injection Hfirst as -> ->. now rewrite Hrest.
  - exact (IH Hfirst).
Qed.

Lemma takes_two_spec (g : list (list atom)) (n : N) (tail : pystr) :
  (n < 100)%N ->
  forallb (fun a => length a <=? 2)%nat g = true ->
  takes_two g n = true ->
  first_alt g (zero_pad 2 n ++ tail) = Some (zero_pad 2 n, tail).
Proof.
  intros Hn Hlen Htakes.
  assert (Hl : length (zero_pad 2 n) = 2%nat)
    by (apply zero_pad_length; [lia | exact Hn]).
  rewrite first_alt_app by (rewrite Hl; exact Hlen).
  unfold takes_two in Htakes.
  destruct (first_alt g (zero_pad 2 n)) as [[m [|c r]]|]; try discriminate.
  apply pystr_eqb_eq in Htakes. now subst.
Qed.

Lemma match_alt_digits (s tail : pystr) :
  forallb is_digit s = true ->
  match_alt (repeat (Range "0" "9") (length s)) (s ++ tail) = Some (s, tail).
Proof.
  induction s as [|c s IH]; intros Hd; [reflexivity|].
  cbn [forallb] in Hd. apply andb_true_iff in Hd. destruct Hd as [Hc Hs].
  cbn [length repeat app match_alt].
  change (atom_matches (Range "0" "9") c) with (is_digit c).
  now rewrite Hc, (IH Hs).
Qed.

Lemma digits_value_zeros (k : nat) (s : pystr) :
  digits_value 0 (repeat 48%N k ++ s) = digits_value 0 s.
Proof.
  induction k as [|k IH]; [reflexivity|].
  cbn [repeat app]. unfold digits_value in *. cbn [fold_left]. exact IH.
Qed.

Lemma int_of_str_zero_pad (w : nat) (n : N) :
  int_of_str (zero_pad w n) = Ok (Z.of_N n).
Proof.
  pose proof (zero_pad_digits w n) as Hd.
  assert (Hv : digits_value 0 (zero_pad w n) = n)
    by (unfold zero_pad; rewrite digits_value_zeros; apply digits_value_str_N).
  destruct (zero_pad w n) as [|c s] eqn:E.
  - exfalso. unfold zero_pad in E. apply app_eq_nil in E. destruct E as [_ E].
    destruct (str_N_cons n) as (c & s & Hs & _). congruence.
  - rewrite (proj1 (int_of_str_digits c s Hd)), Hv. reflexivity.
Qed.

Lemma compile_datetime_format :
  compile_format DATETIME_FORMAT =
  Ok (map (fun c => (c, group_of c))
          ["y"; "m"; "d"; "H"; "M"; "S"; "f"]%char).
Proof. reflexivity. Qed.

Lemma groups_take_two (n : N) :
  ((n < 100 -> takes_two (group_of "y") n = true)
   /\ (1 <= n <= 12 -> takes_two (group_of "m") n = true)
   /\ (1 <= n <= 31 -> takes_two (group_of "d") n = true)
   /\ (n < 24 -> takes_two (group_of "H") n = true)
   /\ (n < 60 -> takes_two (group_of "M") n = true)
   /\ (n < 60 -> takes_two (group_of "S") n = true))%N.
Proof.
  repeat split; intros Hn.
  - exact (forall_below (takes_two (group_of "y")) 100
             ltac:(vm_compute; reflexivity) n Hn).
  - pose proof (forall_below
      (fun n => (n =? 0)%N || takes_two (group_of "m") n) 13
      ltac:(vm_compute; reflexivity) n ltac:(lia)) as H.
    cbv beta in H. destruct (N.eqb_spec n 0); [lia | exact H].
  - pose proof (forall_below
      (fun n => (n =? 0)%N || takes_two (group_of "d") n) 32
      ltac:(vm_compute; reflexivity) n ltac:(lia)) as H.
    cbv beta in H. destruct (N.eqb_spec n 0); [lia | exact H].
  - exact (forall_below (takes_two (group_of "H")) 24
             ltac:(vm_compute; reflexivity) n Hn).
  - exact (forall_below (takes_two (group_of "M")) 60
             ltac:(vm_compute; reflexivity) n Hn).
  - exact (forall_below (takes_two (group_of "S")) 60
             ltac:(vm_compute; reflexivity) n Hn).
Qed.

Lemma match_wire_timestamp (t : datetime) :
  valid_datetime t = true ->
  match_groups (map group_of ["y"; "m"; "d"; "H"; "M"; "S"; "f"]%char)
               (wire_timestamp t) =
  Some ([zero_pad 2 (year t mod 100); zero_pad 2 (month t);
         zero_pad 2 (day t); zero_pad 2 (hour t); zero_pad 2 (minute t);
         zero_pad 2 (second t); zero_pad 6 (microsecond t)], []).
Proof.
  intros Hv. apply valid_datetime_bounds in Hv.
  destruct Hv as (Hy & Hm & Hd & Hh & Hmi & Hs & Hus).
  pose proof (days_in_month_le (year t) (month t)) as Hdm.
  pose proof (N.mod_lt (year t) 100 ltac:(lia)) as Hyy.
  rewrite wire_timestamp_fields. cbn [map].
  eapply match_groups_first;
    [apply takes_two_spec;
       [exact Hyy | reflexivity | apply groups_take_two; exact Hyy]|].
  eapply match_groups_first;
    [apply takes_two_spec;
       [lia | reflexivity | apply groups_take_two; exact Hm]|].
  eapply match_groups_first;
    [apply takes_two_spec;
       [lia | reflexivity | apply groups_take_two; lia]|].
  eapply match_groups_first;
    [apply takes_two_spec;
       [lia | reflexivity | apply groups_take_two; exact Hh]|].
  eapply match_groups_first;
    [apply takes_two_spec;
       [lia | reflexivity | apply (proj1 (proj2 (proj2 (proj2 (proj2
                                     (groups_take_two (minute t))))))); exact Hmi]|].
  eapply match_groups_first;
    [apply takes_two_spec;
       [lia | reflexivity | apply (proj2 (proj2 (proj2 (proj2 (proj2
                                     (groups_take_two (second t))))))); exact Hs]|].
  eapply match_groups_first; [|reflexivity].
  assert (Hlen : length (zero_pad 6 (microsecond t)) = 6%nat)
    by (apply zero_pad_length; [lia | exact Hus]).
  pose proof (match_alt_digits (zero_pad 6 (microsecond t)) []
                (zero_pad_digits 6 (microsecond t))) as H.
  rewrite Hlen, app_nil_r in H.
  change (group_of "f")
    with [repeat (Range "0" "9") 6; repeat (Range "0" "9") 5;
          repeat (Range "0" "9") 4; repeat (Range "0" "9") 3;
          repeat (Range "0" "9") 2; repeat (Range "0" "9") 1].
  cbn [first_alt]. now rewrite H.
Qed.

Lemma valid_datetime_intro (t : datetime) :
  (1 <= year t <= 9999 /\ 1 <= month t <= 12 /\
   1 <= day t <= days_in_month (year t) (month t) /\
   hour t < 24 /\ minute t < 60 /\ second t < 60 /\
   microsecond t < 1000000)%N ->
  valid_datetime t = true.
Proof.
  unfold valid_datetime. rewrite !andb_true_iff.
  rewrite !N.leb_le, !N.ltb_lt. tauto.
Qed.

Lemma pivot_year_window (y : N) :
  (1969 <= pivot_year y <= 2068)%N
  /\ ((1969 <= y <= 2068)%N -> pivot_year y = y).
Proof.
  unfold pivot_year.
  pose proof (N.mod_lt y 100 ltac:(lia)) as Hr.
  pose proof (N.div_mod y 100 ltac:(lia)) as Hy.
  set (r := (y mod 100)%N) in *. set (q := (y / 100)%N) in *. clearbody r q.
  destruct (N.leb_spec r 68); split; lia.
Qed.

Lemma is_leap_pivot_year (y : N) :
  is_leap y = true -> is_leap (pivot_year y) = true.
Proof.
  intros Hleap.
  assert (H4 : (y mod 4 = 0)%N).
  { unfold is_leap in Hleap. apply andb_true_iff in Hleap.
    destruct Hleap as [H _]. now apply N.eqb_eq in H. }
  assert (Hr4 : ((y mod 100) mod 4 = 0)%N).
  { pose proof (N.div_mod y 100 ltac:(lia)) as E1.
    pose proof (N.div_mod (y mod 100) 4 ltac:(lia)) as E2.
    pose proof (N.div_mod y 4 ltac:(lia)) as E3.
    pose proof (N.mod_lt (y mod 100) 4 ltac:(lia)) as B2.
    rewrite H4 in E3.
    set (r := (y mod 100)%N) in *. set (q := (y / 100)%N) in *.
    set (a := (r / 4)%N) in *. set (b := (r mod 4)%N) in *.
    set (c := (y / 4)%N) in *. clearbody r q a b c. lia. }
  pose proof (forall_below
    (fun r => negb (r mod 4 =? 0)%N
              || is_leap (if r <=? 68 then 2000 + r else 1900 + r)%N)
    100 ltac:(vm_compute; reflexivity) (y mod 100)%N
    (N.mod_lt y 100 ltac:(lia))) as H.
  cbv beta in H. rewrite Hr4 in H. exact H.
Qed.

Lemma days_in_month_pivot_year (y m : N) :
  (days_in_month y m <= days_in_month (pivot_year y) m)%N.
Proof.
  pose proof (is_leap_pivot_year y) as Hleap.
  unfold days_in_month.
  destruct m as [|p]; [lia|].
  do 4 (try (destruct p as [p|p|]; try lia)).
  destruct (is_leap y); [rewrite (Hleap eq_refl); lia|].
  destruct (is_leap (pivot_year y)); lia.
Qed.

Lemma strptime_wire_timestamp_pivot (t : datetime) :
  valid_datetime t = true ->
  strptime (strftime t DATETIME_FORMAT) DATETIME_FORMAT
  = Ok (with_year t (pivot_year (year t))).
Proof.
  intros Hv.
  unfold strptime. rewrite compile_datetime_format. cbn [bind].
  rewrite map_map. cbn [map snd fst].
  pose proof (match_wire_timestamp t Hv) as Hmatch.
  unfold wire_timestamp in Hmatch. cbn [map] in Hmatch. rewrite Hmatch.
  cbn [combine convert_fields convert_field].
  pose proof (valid_datetime_bounds t Hv)
    as (Hy & Hm & Hd & Hh & Hmi & Hs & Hus).
  assert (Hlen : length (zero_pad 6 (microsecond t)) = 6%nat)
    by (apply zero_pad_length; [lia | exact Hus]).
  rewrite Hlen. cbn [Nat.sub repeat]. rewrite app_nil_r.
  rewrite !int_of_str_zero_pad.
  cbv beta iota delta [bind year month day hour minute second microsecond].
  fold (year t) (month t) (day t) (hour t) (minute t) (second t)
    (microsecond t).
  rewrite !N2Z.id. fold (pivot_year (year t)).
  unfold new_datetime.
  rewrite valid_datetime_intro; [reflexivity|].
  cbv beta iota delta [year month day hour minute second microsecond].
  fold (year t) (month t) (day t) (hour t) (minute t) (second t)
    (microsecond t).
  pose proof (proj1 (pivot_year_window (year t))) as Hp.
  pose proof (days_in_month_pivot_year (year t) (month t)) as Hdim.
  repeat split; try lia.
Qed.

(** Reading a wire timestamp back gives the date and time that was
    written, with the year that has the same last two digits between 1969
    and 2068: the timestamp itself when its year lies in that range. *)
Theorem strptime_wire_timestamp (t : datetime) :
  valid_datetime t = true ->
  strptime (strftime t DATETIME_FORMAT) DATETIME_FORMAT
  = Ok (with_year t (pivot_year (year t)))
  /\ ((1969 <= year t <= 2068)%N ->
      strptime (strftime t DATETIME_FORMAT) DATETIME_FORMAT = Ok t).
Proof.
  intros Hv. pose proof (strptime_wire_timestamp_pivot t Hv) as Hpivot.
  split; [exact Hpivot|].
  intros Hwindow. rewrite Hpivot.
  rewrite (proj2 (pivot_year_window (year t)) Hwindow).
  destruct t; reflexivity.
Qed.

Lemma strptime_wire_timestamp_witness :
  strptime (lit "210101010101000000") DATETIME_FORMAT = Ok new_year_2021
  /\ strptime (strftime new_year_2121 DATETIME_FORMAT) DATETIME_FORMAT
     = Ok new_year_2021.
Proof.
  split.
  - exact (proj2 (strptime_wire_timestamp new_year_2021 eq_refl)
             ltac:(cbn; lia)).
  - exact (proj1 (strptime_wire_timestamp new_year_2121 eq_refl)).
Defined.

(** ** A history comes back as it was sent *)

Lemma split_join (fields : list pystr) (sep : codepoint) :
  fields <> [] ->
  Forall (fun field => ~ In sep field) fields ->
  split (join sep fields) sep = fields.
Proof.
  induction fields as [|field fields IH]; intros Hne Hno; [now destruct Hne|].
  inversion Hno as [|? ? Hfield Hrest]; subst.
  destruct fields as [|field' fields].
  - cbn [join]. now apply split_no_sep.
  - change (join sep (field :: field' :: fields))
      with (field ++ sep :: join sep (field' :: fields)).
    rewrite (split_app_sep _ _ _ Hfield), IH; [reflexivity|discriminate|exact Hrest].
Qed.

Lemma history_fields_app (done todo : list (pystr * datetime)) :
  history_fields (done ++ todo) = history_fields done ++ history_fields todo.
Proof. unfold history_fields. apply flat_map_app. Qed.

Lemma history_fields_length (visits : list (pystr * datetime)) :
  length (history_fields visits) = (2 * length visits)%nat.
Proof.
  induction visits as [|v visits IH]; [reflexivity|].
  change (history_fields (v :: visits))
    with (fst v :: strftime (snd v) DATETIME_FORMAT :: history_fields visits).
  cbn [length]. rewrite IH. lia.
Qed.

Lemma history_fields_without_equals (visits : list (pystr * datetime)) :
  Forall readable_visit visits ->
  Forall (fun field => ~ In EQUALS field) (history_fields visits).
Proof.
  induction 1 as [|v visits (Hloc & _ & _) _ IH]; [constructor|].
  cbn [history_fields flat_map app]. constructor; [exact Hloc|].
  constructor; [|exact IH].
  apply digits_without; [apply wire_timestamp_digits | reflexivity].
Qed.

Lemma history_loop_fields (todo : list (pystr * datetime)) :
  forall (done acc : list (pystr * datetime)),
    Forall readable_visit todo ->
    history_loop (history_fields (done ++ todo))
      (map (fun k => 0 + k * 2)%nat (seq (length done) (length todo))) acc
    = Ok (acc ++ todo).
Proof.
  induction todo as [|v todo IH]; intros done acc Hall.
  - cbn [length seq map history_loop]. now rewrite app_nil_r.
  - inversion Hall as [|? ? (Hloc & Hvalid & Hwindow) Hrest]; subst.
    cbn [length seq map history_loop].
    assert (Hdata : history_fields (done ++ v :: todo)
                    = history_fields done
                      ++ fst v :: strftime (snd v) DATETIME_FORMAT
                         :: history_fields todo).
    { rewrite history_fields_app. reflexivity. }
    assert (H0 : index (history_fields (done ++ v :: todo))
                   (0 + length done * 2) = Ok (fst v)).
    { unfold index. rewrite Hdata.
      rewrite nth_error_app2 by (rewrite history_fields_length; lia).
      rewrite history_fields_length.
      replace (0 + length done * 2 - 2 * length done)%nat with 0%nat by lia.
      reflexivity. }
    assert (H1 : index (history_fields (done ++ v :: todo))
                   (0 + length done * 2 + 1)
                 = Ok (strftime (snd v) DATETIME_FORMAT)).
    { unfold index. rewrite Hdata.
      rewrite nth_error_app2 by (rewrite history_fields_length; lia).
      rewrite history_fields_length.
      replace (0 + length done * 2 + 1 - 2 * length done)%nat with 1%nat by lia.
      reflexivity. }
    step H0. step H1.
    rewrite (strptime_wire_timestamp_pivot (snd v) Hvalid).
    rewrite (proj2 (pivot_year_window (year (snd v))) Hwindow).
    replace (with_year (snd v) (year (snd v))) with (snd v)
      by (destruct (snd v); reflexivity).
    cbn [bind].
    specialize (IH (done ++ [v]) (acc ++ [(fst v, snd v)]) Hrest).
    rewrite <- app_assoc in IH. cbn [app] in IH.
    rewrite length_app in IH. cbn [length] in IH.
    replace (length done + 1)%nat with (S (length done)) in IH by lia.
    rewrite IH. rewrite <- app_assoc. cbn [app].
    destruct v; reflexivity.
Qed.

Lemma range_of_pairs (n : nat) :
  range 0 (2 * n) 2 = map (fun k => 0 + k * 2)%nat (seq 0 n).
Proof.
  unfold range. do 2 f_equal.
  symmetry. apply Nat.div_unique with 1%nat; lia.
Qed.

Lemma b64encode_nonempty (bs : bytes) : bs <> [] -> b64encode bs <> [].
Proof.
  destruct bs as [|a [|b [|c rest]]]; [congruence| | |]; discriminate.
Qed.

(** Whatever history the network holds comes back as it is: when the value
    of a success response is the base64 form of the UTF-8 bytes of
    location1=timestamp1=location2=timestamp2..., [query_device_information]
    returns exactly these visits, in this order and with repetitions kept,
    provided no location holds "=" and every year lies between 1969 and
    2068. *)
Theorem history_round_trip (w : World) (device_id : Z) (response : bytes)
    (dict message code info : json) (visits : list (pystr * datetime))
    (raw : bytes) :
  requests_get w (history_url device_id) = Ok response ->
  json_loads w response = Ok dict ->
  getitem2 dict "result" "response" = Ok message ->
  getitem message "code" = Ok code ->
  truthy code = false ->
  Forall readable_visit visits ->
  utf8_encode (history_payload visits) = Ok raw ->
  getitem message "value" = Ok (JStr (ascii_str (b64encode raw))) ->
  getitem message "info" = Ok info ->
  query_device_information w device_id = Ok (true, info, visits).
Proof.
  intros Hget Hjson Hmsg Hcode Hzero Hvisits Hraw Hvalue Hinfo.
  unfold query_device_information, query_device_information_body.
  rewrite format_history_url. cbn [bind].
  step Hget. step Hjson. step Hmsg. step Hcode. rewrite Hzero.
  step Hvalue.
  assert (Hinfo_visits :
            (if truthy (JStr (ascii_str (b64encode raw)))
             then decode_history (JStr (ascii_str (b64encode raw)))
             else Ok []) = Ok visits).
  { destruct visits as [|v visits].
    - change (utf8_encode (history_payload [])) with (Ok (@nil byte)) in Hraw.
      apply Ok_inj in Hraw. subst raw. reflexivity.
    - pose proof (utf8_decode_encode _ _ Hraw) as Hdecode.
      assert (Hfields : history_fields (v :: visits) <> []) by discriminate.
      assert (Hnonempty : raw <> []).
      { intros ->. change (utf8_decode []) with (Ok (@nil N)) in Hdecode.
        apply Ok_inj in Hdecode.
        pose proof (split_join _ EQUALS Hfields
                      (history_fields_without_equals _ Hvisits)) as Hsplit.
        unfold history_payload in Hdecode. rewrite <- Hdecode in Hsplit.
        apply (f_equal (@length _)) in Hsplit.
        rewrite history_fields_length in Hsplit. cbn [split length] in Hsplit.
        lia. }
      assert (Htruthy : truthy (JStr (ascii_str (b64encode raw))) = true).
      { pose proof (b64encode_nonempty raw Hnonempty) as Hb.
        destruct (b64encode raw); [congruence | reflexivity]. }
      rewrite Htruthy. unfold decode_history.
      rewrite b64decode_b64encode. cbn [bind].
      unfold decode, BYTE_ENCODING. cbn [String.eqb Ascii.eqb Bool.eqb].
      rewrite Hdecode. cbn [bind].
      unfold history_payload.
      rewrite (split_join _ EQUALS Hfields
                 (history_fields_without_equals _ Hvisits)).
      rewrite history_fields_length, range_of_pairs.
      exact (history_loop_fields (v :: visits) [] [] Hvisits). }
  step Hinfo_visits. step Hinfo. reflexivity.
Qed.

Lemma history_round_trip_witness :
  query_device_information
    (answering (query_response (JInt 0) (JStr []) (JStr (lit "ok"))
                  (base64_str two_visits))) 3
  = Ok (true, JStr (lit "ok"),
        [(lit "siteA", new_year_2021);
         (lit "siteB", mk_datetime 2021 1 2 2 2 2 0)]).
Proof.
  assert (Hvisits : Forall readable_visit
                      [(lit "siteA", new_year_2021);
                       (lit "siteB", mk_datetime 2021 1 2 2 2 2 0)]).
  { repeat constructor; cbn; try lia; intuition discriminate. }
  exact (history_round_trip
           (answering (query_response (JInt 0) (JStr []) (JStr (lit "ok"))
                         (base64_str two_visits)))
           3 []
           (query_response (JInt 0) (JStr []) (JStr (lit "ok"))
              (base64_str two_visits))
           (dict_of [("code"%string, JInt 0); ("log"%string, JStr []);
                     ("info"%string, JStr (lit "ok"));
                     ("value"%string, base64_str two_visits)])
           (JInt 0) (JStr (lit "ok"))
           [(lit "siteA", new_year_2021);
            (lit "siteB", mk_datetime 2021 1 2 2 2 2 0)]
           (ascii_bytes two_visits)
           eq_refl eq_refl eq_refl eq_refl eq_refl Hvisits eq_refl eq_refl
           eq_refl).
Defined.

(** ** What a successful history holds *)

Lemma index_ok {A} (l : list A) (i : nat) (x : A) :
  index l i = Ok x -> nth_error l i = Some x.
Proof.
  unfold index. destruct (nth_error l i); [|discriminate].
  intros H. apply Ok_inj in H. now subst.
Qed.

Lemma history_loop_visits (data : list pystr) (n : nat) :
  forall (a : nat) (acc r : list (pystr * datetime)),
    history_loop data (map (fun k => 0 + k * 2)%nat (seq a n)) acc = Ok r ->
    exists visits,
      r = acc ++ visits /\ length visits = n
      /\ forall k v, nth_error visits k = Some v ->
                     visit_of_fields data (a + k) v.
Proof.
  induction n as [|n IH]; intros a acc r Hr.
  - cbn [seq map history_loop] in Hr. apply Ok_inj in Hr. subst r.
    exists []. rewrite app_nil_r. split; [reflexivity|]. split; [reflexivity|].
    intros [|k] v Hk; discriminate.
  - cbn [seq map history_loop] in Hr.
    destruct (index data (0 + a * 2)) as [location|e] eqn:E0;
      cbn [bind] in Hr; [|discriminate].
    destruct (index data (0 + a * 2 + 1)) as [text|e] eqn:E1;
      cbn [bind] in Hr; [|discriminate].
    destruct (strptime text DATETIME_FORMAT) as [t|e] eqn:Et;
      cbn [bind] in Hr; [|discriminate].
    destruct (IH _ _ _ Hr) as (visits & -> & Hlen & Hvisits).
    exists ((location, t) :: visits). rewrite <- app_assoc. cbn [app length].
    split; [reflexivity|]. split; [now rewrite Hlen|].
    intros [|k] v Hk.
    + cbn [nth_error] in Hk. injection Hk as <-.
      apply index_ok in E0, E1. rewrite Nat.add_0_r.
      split; cbn [fst snd].
      * rewrite <- E0. f_equal. lia.
      * exists text. split; [rewrite <- E1; f_equal; lia | exact Et].
    + cbn [nth_error] in Hk. specialize (Hvisits k v Hk).
      replace (a + S k)%nat with (S a + k)%nat by lia. exact Hvisits.
Qed.

Lemma history_loop_even (data : list pystr) (r : list (pystr * datetime)) :
  history_loop data (range 0 (length data) 2) [] = Ok r ->
  length data = (2 * length r)%nat
  /\ forall k v, nth_error r k = Some v -> visit_of_fields data k v.
Proof.
  intros Hr.
  destruct (Nat.odd (length data)) eqn:Hodd.
  - destruct (history_loop_odd data Hodd) as (e & He & _). congruence.
  - assert (Heven : Nat.even (length data) = true)
      by (rewrite <- Nat.negb_odd, Hodd; reflexivity).
    apply Nat.even_spec in Heven. destruct Heven as [m Hm].
    rewrite Hm, range_of_pairs in Hr.
    destruct (history_loop_visits data m 0 [] r Hr) as (visits & -> & Hlen & Hv).
    cbn [app]. split; [lia | exact Hv].
Qed.

(** A successful history is never partial: when [query_device_information]
    returns success on a value that is not empty, the payload has two
    fields for every visit returned, and the k-th visit is the field 2k as
    location with the field 2k+1 read as timestamp: nothing is skipped,
    merged or reordered. *)
Theorem history_success_pairs (w : World) (device_id : Z) (response : bytes)
    (dict message code value info : json) (raw : bytes) (text : pystr)
    (visits : list (pystr * datetime)) :
  requests_get w (history_url device_id) = Ok response ->
  json_loads w response = Ok dict ->
  getitem2 dict "result" "response" = Ok message ->
  getitem message "code" = Ok code ->
  truthy code = false ->
  getitem message "value" = Ok value ->
  truthy value = true ->
  b64decode value = Ok raw ->
  decode raw BYTE_ENCODING = Ok text ->
  query_device_information w device_id = Ok (true, info, visits) ->
  length (split text EQUALS) = (2 * length visits)%nat
  /\ forall k v, nth_error visits k = Some v ->
                 visit_of_fields (split text EQUALS) k v.
Proof.
  intros Hget Hjson Hmsg Hcode Hzero Hvalue Hfull Hraw Htext Hresult.
  apply history_loop_even.
  unfold query_device_information, query_device_information_body in Hresult.
  rewrite format_history_url in Hresult. cbn [bind] in Hresult.
  rewrite Hget in Hresult. cbn [bind] in Hresult.
  rewrite Hjson in Hresult. cbn [bind] in Hresult.
  rewrite Hmsg in Hresult. cbn [bind] in Hresult.
  rewrite Hcode in Hresult. cbn [bind] in Hresult.
  rewrite Hzero, Hvalue in Hresult. cbn [bind] in Hresult.
  rewrite Hfull in Hresult. unfold decode_history in Hresult.
  rewrite Hraw in Hresult. cbn [bind] in Hresult.
  rewrite Htext in Hresult. cbn [bind] in Hresult.
  destruct (history_loop _ _ []) as [r|e] eqn:Hloop; cbn [bind] in Hresult.
  - destruct (getitem message "info") as [i|e]; cbn [bind] in Hresult.
    + cbn [try_except] in Hresult. congruence.
    + destruct e; cbn in Hresult; discriminate.
  - destruct e; cbn in Hresult; discriminate.
Qed.

Lemma history_success_pairs_witness :
  length (split two_visits EQUALS) = 4%nat
  /\ visit_of_fields (split two_visits EQUALS) 1
       (lit "siteB", mk_datetime 2021 1 2 2 2 2 0).
Proof.
  destruct (history_success_pairs
              (answering (query_response (JInt 0) (JStr []) (JStr (lit "ok"))
                            (base64_str two_visits)))
              3 []
              (query_response (JInt 0) (JStr []) (JStr (lit "ok"))
                 (base64_str two_visits))
              (dict_of [("code"%string, JInt 0); ("log"%string, JStr []);
                        ("info"%string, JStr (lit "ok"));
                        ("value"%string, base64_str two_visits)])
              (JInt 0) (base64_str two_visits) (JStr (lit "ok"))
              (ascii_bytes two_visits) two_visits
              [(lit "siteA", new_year_2021);
               (lit "siteB", mk_datetime 2021 1 2 2 2 2 0)]
              eq_refl eq_refl eq_refl eq_refl eq_refl eq_refl eq_refl eq_refl
              eq_refl eq_refl) as [Hlen Hvisit].
  split; [exact Hlen | exact (Hvisit 1%nat _ eq_refl)].
Defined.

(** ** Payloads that cannot be decoded *)











(** ** Timestamps that look alike, and requests that differ *)

Lemma wire_timestamp_length_fields (t : datetime) :
  valid_datetime t = true ->
  wire_timestamp t =
    zero_pad 2 (year t mod 100) ++ zero_pad 2 (month t) ++ zero_pad 2 (day t)
    ++ zero_pad 2 (hour t) ++ zero_pad 2 (minute t) ++ zero_pad 2 (second t)
    ++ zero_pad 6 (microsecond t)
  /\ length (wire_timestamp t) = 18%nat.
Proof.
  intros Hv. split; [apply wire_timestamp_fields|].
  apply valid_datetime_bounds in Hv.
  destruct Hv as (Hy & Hm & Hd & Hh & Hmi & Hs & Hus).
  pose proof (days_in_month_le (year t) (month t)) as Hdm.
  rewrite wire_timestamp_fields, !length_app.
  rewrite !zero_pad_length; try lia.
  change (10 ^ N.of_nat 2)%N with 100%N. apply N.mod_lt. lia.
Qed.

Lemma pivot_year_same (y y' : N) :
  pivot_year y = pivot_year y' <-> (y mod 100 = y' mod 100)%N.
Proof.
  unfold pivot_year.
  pose proof (N.mod_lt y 100 ltac:(lia)) as Hr.
  pose proof (N.mod_lt y' 100 ltac:(lia)) as Hr'.
  set (r := (y mod 100)%N) in *. set (r' := (y' mod 100)%N) in *.
  clearbody r r'.
  destruct (N.leb_spec r 68), (N.leb_spec r' 68); split; lia.
Qed.

(** Two dates and times have the same wire timestamp exactly when they
    agree in everything but the hundreds of the year: the timestamp of a
    record does not say which century it is from. *)
Theorem wire_timestamp_collisions (t t' : datetime) :
  valid_datetime t = true -> valid_datetime t' = true ->
  (strftime t DATETIME_FORMAT = strftime t' DATETIME_FORMAT
   <-> (year t mod 100 = year t' mod 100 /\ month t = month t'
        /\ day t = day t' /\ hour t = hour t' /\ minute t = minute t'
        /\ second t = second t' /\ microsecond t = microsecond t')%N).
Proof.
  intros Hv Hv'. split.
  - intros Heq.
    pose proof (strptime_wire_timestamp_pivot t Hv) as H.
    pose proof (strptime_wire_timestamp_pivot t' Hv') as H'.
    rewrite Heq, H' in H. apply Ok_inj in H. unfold with_year in H.
    injection H as Hy -> -> -> -> -> ->.
    split; [|repeat split]. symmetry. now apply pivot_year_same.
  - intros (Hy & Hm & Hd & Hh & Hmi & Hs & Hus).
    change (wire_timestamp t = wire_timestamp t').
    rewrite !wire_timestamp_fields. congruence.
Qed.

Lemma wire_timestamp_collisions_witness :
  strftime new_year_2021 DATETIME_FORMAT = strftime new_year_2121 DATETIME_FORMAT.
Proof.
  apply (proj2 (wire_timestamp_collisions new_year_2021 new_year_2121
                  eq_refl eq_refl)).
  repeat split.
Defined.

Lemma app_same_length {A} (a : list A) :
  forall (a' b b' : list A),
    length b = length b' -> a ++ b = a' ++ b' -> a = a' /\ b = b'.
Proof.
  induction a as [|x a IH]; intros a' b b' Hlen Heq.
  - destruct a' as [|x' a']; [now split|].
    apply (f_equal (@length _)) in Heq. cbn [app length] in Heq.
    rewrite length_app in Heq. lia.
  - destruct a' as [|x' a'].
    + apply (f_equal (@length _)) in Heq. cbn [app length] in Heq.
      rewrite length_app in Heq. lia.
    + cbn [app] in Heq. injection Heq as -> Heq.
      destruct (IH a' b b' Hlen Heq) as [-> ->]. now split.
Qed.

(** The request [allocate_device_id] sends tells the location and the wire
    timestamp apart: two allocation requests are the same only when they
    carry the same location and the same wire timestamp, also when a
    location holds "=". *)
Theorem allocation_requests_differ (location location' : pystr)
    (now now' : datetime) :
  valid_datetime now = true -> valid_datetime now' = true ->
  format ALLOCATE_URL [PStr location; PStr (strftime now DATETIME_FORMAT)]
  = format ALLOCATE_URL [PStr location'; PStr (strftime now' DATETIME_FORMAT)] ->
  location = location'
  /\ strftime now DATETIME_FORMAT = strftime now' DATETIME_FORMAT.
Proof.
  intros Hv Hv' Heq. rewrite !format_allocate_url in Heq.
  apply Ok_inj in Heq. unfold allocate_url in Heq.
  do 3 apply app_inv_head in Heq.
  pose proof (proj2 (wire_timestamp_length_fields now Hv)) as Hl.
  pose proof (proj2 (wire_timestamp_length_fields now' Hv')) as Hl'.
  unfold wire_timestamp in Hl, Hl'.
  apply app_same_length in Heq;
    [|cbn [length app]; rewrite !length_app, Hl, Hl'; reflexivity].
  destruct Heq as [Hloc Heq]. split; [exact Hloc|].
  apply app_inv_head in Heq. now apply app_inv_tail in Heq.
Qed.

Lemma allocation_requests_differ_witness :
  lit "a=b" = lit "a=b"
  /\ strftime new_year_2021 DATETIME_FORMAT
     = strftime new_year_2121 DATETIME_FORMAT.
Proof.
  exact (allocation_requests_differ (lit "a=b") (lit "a=b") new_year_2021
           new_year_2121 eq_refl eq_refl eq_refl).
Defined.

(** ** What [compute_hash] returns *)


